(** * Verification of [bin/reflections.py]

    A shallow embedding of the exam-reflection script: the survey compiler
    of [generate_pdfs], the clean-up of the output directory, the cover-text
    selection and the dispatch loop of [send_emails] / [send_email].

    Conventions of the embedding.
    - Python [str] is [string] (ASCII; case conversion and digits are the
      ASCII ones).
    - Python [float] is IEEE 754 binary64, as the pure specification
      [spec_float] of the standard library with [prec = 53], [emax = 1024].
    - A Python [dict] is a [gmap] keyed by strings; the file system is a
      [gmap] from paths to file contents.
    - An uncaught exception is the [Raise] outcome of the [result] type;
      [try ... except] is a match on it.
    - External collaborators (the typesetting commands run through
      [os.system], the SMTP server, the printing of floats, the mean of a
      pandas column) are variables of the sections that use them. *)

From Stdlib Require Import ZArith Ascii String List Permutation SpecFloat.
From stdpp Require Import base option list gmap strings pretty fin_maps.

Local Open Scope string_scope.

(** ** Exceptions and results *)

Inductive exn : Type :=
  | KeyError (key : string)
  | IndexError
  | ValueError
  | TypeError
  | AttributeError.

Inductive result (A : Type) : Type :=
  | Ok (a : A)
  | Raise (e : exn).

Arguments Ok {A} a.
Arguments Raise {A} e.

#[global] Instance result_ret : MRet result := @Ok.

#[global] Instance result_bind : MBind result := λ A B k r,
  match r with
  | Ok a => k a
  | Raise e => Raise e
  end.

(** ** Python string operations used by the script *)

Module PyStr.

(** [s[:-1]]: every character but the last; the empty string stays empty. *)
Fixpoint drop_last (s : string) : string :=
  match s with
  | EmptyString => EmptyString
  | String c s' =>
      match s' with
      | EmptyString => EmptyString
      | String _ _ => String c (drop_last s')
      end
  end.

(** [s == ''], also [not s]. *)
Definition is_empty (s : string) : bool :=
  match s with
  | EmptyString => true
  | String _ _ => false
  end.

(** [s.startswith(p)]. *)
Definition startswith (p s : string) : bool := String.prefix p s.

(** The last character of [s], if any. *)
Fixpoint last_char (s : string) : option ascii :=
  match s with
  | EmptyString => None
  | String c s' =>
      match s' with
      | EmptyString => Some c
      | String _ _ => last_char s'
      end
  end.

(** [s.endswith(c)] for a one-character suffix [c]. *)
Definition endswith_char (c : ascii) (s : string) : bool :=
  match last_char s with
  | Some d => Ascii.eqb d c
  | None => false
  end.

(** [s.split(sep)] for a one-character separator: never the empty list. *)
Fixpoint split (sep : ascii) (s : string) : list string :=
  match s with
  | EmptyString => [EmptyString]
  | String c s' =>
      if Ascii.eqb c sep then EmptyString :: split sep s'
      else match split sep s' with
           | h :: t => String c h :: t
           | [] => [String c EmptyString]
           end
  end.

(** [l[i]] on a list: [IndexError] out of range. *)
Definition index {A : Type} (l : list A) (i : nat) : result A :=
  match nth_error l i with
  | Some x => Ok x
  | None => Raise IndexError
  end.

Definition lower_char (c : ascii) : ascii :=
  let n := nat_of_ascii c in
  if (65 <=? n)%nat && (n <=? 90)%nat then ascii_of_nat (n + 32) else c.

(** [s.lower()] on ASCII text. *)
Fixpoint lower (s : string) : string :=
  match s with
  | EmptyString => EmptyString
  | String c s' => String (lower_char c) (lower s')
  end.

(** [s.replace(' ', '')]. *)
Fixpoint remove_spaces (s : string) : string :=
  match s with
  | EmptyString => EmptyString
  | String c s' =>
      if Ascii.eqb c " " then remove_spaces s' else String c (remove_spaces s')
  end.

(** [c * n]. *)
Fixpoint repeat_char (c : ascii) (n : nat) : string :=
  match n with
  | O => EmptyString
  | S n' => String c (repeat_char c n')
  end.

(** Whether [c] occurs in [s]. *)
Fixpoint contains (c : ascii) (s : string) : bool :=
  match s with
  | EmptyString => false
  | String d s' => Ascii.eqb d c || contains c s'
  end.

End PyStr.

(** ** Python floats: binary64 and the [float(str)] constructor *)

Module PyFloat.

Definition prec : Z := 53.
Definition emax : Z := 1024.

Abbreviation float := spec_float.

Definition add (x y : float) : float := SFadd prec emax x y.
Definition div (x y : float) : float := SFdiv prec emax x y.
Definition ltb (x y : float) : bool := SFltb x y.
Definition leb (x y : float) : bool := SFleb x y.
Definition eqb (x y : float) : bool := SFeqb x y.

(** The float nearest to the integer [z] (ties to even). *)
Definition of_Z (z : Z) : float := binary_normalize prec emax z 0 false.

(** The float nearest to [(-1)^neg * m * 10^e] for [0 <= m]: the quotient
    is taken with 64 bits or more and a sticky bit below them, so that the
    single rounding of [binary_normalize] is the correct one. *)
Definition of_decimal (neg : bool) (m e : Z) : float :=
  if (m =? 0)%Z then S754_zero neg
  else if (0 <=? e)%Z then
    binary_normalize prec emax (cond_Zopp neg (m * 10 ^ e)) 0 false
  else
    let den := (10 ^ (- e))%Z in
    let k := Z.max 0 (Z.log2 den - Z.log2 m + 64) in
    let num := (m * 2 ^ k)%Z in
    let q := (num / den)%Z in
    let sticky := if (num mod den =? 0)%Z then 0%Z else 1%Z in
    binary_normalize prec emax (cond_Zopp neg (2 * q + sticky)) (- k - 1) false.

(** *** The grammar accepted by [float(s)] *)

(** The characters [float] strips from both ends of an ASCII string: the
    tab, the line feed, the vertical tab, the form feed, the carriage return
    and the space (the separators 28 to 31, which [str.strip] removes, are
    not among them). *)
Definition is_space (c : ascii) : bool :=
  let n := nat_of_ascii c in
  ((9 <=? n)%nat && (n <=? 13)%nat) || (n =? 32)%nat.

Definition is_digit (c : ascii) : bool :=
  let n := nat_of_ascii c in (48 <=? n)%nat && (n <=? 57)%nat.

Definition digit_val (c : ascii) : Z := Z.of_nat (nat_of_ascii c - 48).

Fixpoint lstrip (s : string) : string :=
  match s with
  | EmptyString => EmptyString
  | String c s' => if is_space c then lstrip s' else s
  end.

Fixpoint rstrip (s : string) : string :=
  match s with
  | EmptyString => EmptyString
  | String c s' =>
      match rstrip s' with
      | EmptyString => if is_space c then EmptyString else String c EmptyString
      | r => String c r
      end
  end.

(** The longest prefix made of digits and underscores, and the rest. *)
Fixpoint span_digits (s : string) : string * string :=
  match s with
  | EmptyString => (EmptyString, EmptyString)
  | String c s' =>
      if is_digit c || Ascii.eqb c "_" then
        let '(d, r) := span_digits s' in (String c d, r)
      else (EmptyString, s)
  end.

(** [digitpart ::= digit (["_"] digit)*] on a run of digits and
    underscores: [prev] tells whether the previous character was a digit. *)
Fixpoint digitpart_ok (prev : bool) (s : string) : bool :=
  match s with
  | EmptyString => prev
  | String c s' =>
      if Ascii.eqb c "_" then prev && digitpart_ok false s'
      else digitpart_ok true s'
  end.

Fixpoint digits_value (acc : Z) (s : string) : Z :=
  match s with
  | EmptyString => acc
  | String c s' =>
      if Ascii.eqb c "_" then digits_value acc s'
      else digits_value (10 * acc + digit_val c) s'
  end.

Fixpoint count_digits (s : string) : Z :=
  match s with
  | EmptyString => 0
  | String c s' =>
      if Ascii.eqb c "_" then count_digits s' else (1 + count_digits s')%Z
  end.

(** An optional sign: whether it is a minus, and the rest. *)
Definition take_sign (s : string) : bool * string :=
  match s with
  | String "-" r => (true, r)
  | String "+" r => (false, r)
  | _ => (false, s)
  end.

(** The exponent part: empty, or [e] / [E], an optional sign and a
    digitpart that ends the string. *)
Definition exponent (s : string) : option Z :=
  match s with
  | EmptyString => Some 0%Z
  | String c r =>
      if Ascii.eqb c "e" || Ascii.eqb c "E" then
        let '(neg, r1) := take_sign r in
        let '(ep, r2) := span_digits r1 in
        if digitpart_ok false ep && PyStr.is_empty r2
        then Some (cond_Zopp neg (digits_value 0 ep))
        else None
      else None
  end.

(** [floatnumber]: mantissa and decimal exponent of an unsigned literal. *)
Definition floatnumber (s : string) : option (Z * Z) :=
  let '(ip, r1) := span_digits s in
  let '(dot, r2) :=
    match r1 with
    | String "." r => (true, r)
    | _ => (false, r1)
    end in
  let '(fp, r3) := if dot then span_digits r2 else (EmptyString, r2) in
  let mantissa_ok :=
    if dot then
      (PyStr.is_empty ip || digitpart_ok false ip)
      && (PyStr.is_empty fp || digitpart_ok false fp)
      && negb (PyStr.is_empty ip && PyStr.is_empty fp)
    else digitpart_ok false ip in
  if mantissa_ok then
    match exponent r3 with
    | Some e => Some (digits_value (digits_value 0 ip) fp, (e - count_digits fp)%Z)
    | None => None
    end
  else None.

(** [absfloatvalue]: [inf], [infinity] and [nan] in any case, or a
    [floatnumber]. *)
Definition absfloatvalue (neg : bool) (s : string) : option float :=
  let ls := PyStr.lower s in
  if String.eqb ls "inf" || String.eqb ls "infinity" then Some (S754_infinity neg)
  else if String.eqb ls "nan" then Some S754_nan
  else match floatnumber s with
       | Some (m, e) => Some (of_decimal neg m e)
       | None => None
       end.

(** [float(s)] for a string [s]: surrounding white space is dropped; a
    string outside the grammar raises [ValueError]. *)
Definition of_string (s : string) : result float :=
  let '(neg, r) := take_sign (rstrip (lstrip s)) in
  match absfloatvalue neg r with
  | Some f => Ok f
  | None => Raise ValueError
  end.

End PyFloat.

(** ** Python values *)

(** A cell of the survey table, as [df.iterrows()] hands it to the loop: a
    string, or a value that is not a string (a number, a [nan] for a blank
    cell).  The script only ever prints such a value ([str(answer)]), slices
    it ([answer[:-1]], a [TypeError]) or asks for [.lower()] (an
    [AttributeError]), so it is represented by what [str] prints for it. *)
Inductive answer : Type :=
  | AStr (s : string)
  | ANonStr (printed : string).

(** Python numbers: [per = 0] is an [int], [float(...)] a [float]. *)
Inductive pynum : Type :=
  | PInt (z : Z)
  | PFloat (f : PyFloat.float).

(** The values stored in the [data] dictionary. *)
Inductive pyval : Type :=
  | VStr (s : string)
  | VNonStr (printed : string)
  | VNum (n : pynum).

Definition val_of_answer (a : answer) : pyval :=
  match a with
  | AStr s => VStr s
  | ANonStr p => VNonStr p
  end.

(** [str(answer)]. *)
Definition str_of_answer (a : answer) : string :=
  match a with
  | AStr s => s
  | ANonStr p => p
  end.

(** [x + y] on numbers: an [int] meets a [float] as a [float]. *)
Definition num_add (x y : pynum) : pynum :=
  match x, y with
  | PInt a, PInt b => PInt (a + b)
  | PInt a, PFloat g => PFloat (PyFloat.add (PyFloat.of_Z a) g)
  | PFloat f, PInt b => PFloat (PyFloat.add f (PyFloat.of_Z b))
  | PFloat f, PFloat g => PFloat (PyFloat.add f g)
  end.

(** [x + y] on the values of [data]: strings concatenate, numbers add. *)
Definition py_add (x y : pyval) : result pyval :=
  match x, y with
  | VStr a, VStr b => Ok (VStr (a +:+ b))
  | VNum a, VNum b => Ok (VNum (num_add a b))
  | _, _ => Raise TypeError
  end.

(** [x == 0] on numbers. *)
Definition num_is_zero (x : pynum) : bool :=
  match x with
  | PInt z => (z =? 0)%Z
  | PFloat f => PyFloat.eqb f (S754_zero false)
  end.

(** [d[k]]. *)
Definition getitem (d : gmap string pyval) (k : string) : result pyval :=
  match d !! k with
  | Some v => Ok v
  | None => Raise (KeyError k)
  end.

(** [d[k] += v]. *)
Definition iadd (d : gmap string pyval) (k : string) (v : pyval)
  : result (gmap string pyval) :=
  old ← getitem d k;
  new ← py_add old v;
  Ok (<[k := new]> d).

(** ** The percentage of an answer (lines 115-118 and 123-126) *)

(** [answer[:-1]]: only a string can be sliced. *)
Definition slice_drop_last (a : answer) : result string :=
  match a with
  | AStr s => Ok (PyStr.drop_last s)
  | ANonStr _ => Raise TypeError
  end.

(** [[
    try:
        per = float(answer[:-1])
    except:
        per = 0
    ]] *)
Definition parse_percentage (a : answer) : pynum :=
  match s ← slice_drop_last a; PyFloat.of_string s with
  | Ok f => PFloat f
  | Raise _ => PInt 0
  end.

(** ** The templates *)

Definition dquote : ascii := ascii_of_nat 34.
Definition nl : string := String (ascii_of_nat 10) EmptyString.

Definition EMAIL_TEMPLATE : string :=
"{FirstName},
{poor_text}
I've attached what you wrote for your midterm reflection. You can use this
information to better prepare for the final exam. If you have any questions
while studying please either come visit me or the TA in the coming week or ask
on Piazza. I've also taken into consideration the comments you left for me in
the reflection. I wish you success!

Jason

Jason K. Moore, PhD
Lecturer, Mechanical and Aerospace Engineering Department
University of California, Davis
faculty.engineering.ucdavis.edu/moore
jkm@ucdavis.edu
530-752-4805".

Definition POOR_TEXT : string :=
"
Your midterm score was below average and I really want you to bring your grade
up with the final. It will take extra work to do so, but I think you can
significantly improve your grade.
".

Definition TEMPLATE : string :=
"===============================================================================
{course_desig} Midterm Reflection
===============================================================================

Student
=======

{FirstName} {LastName}

".

Definition END_TEMPLATE : string :=
"
What percentage of your test-preparation time was spent in each of these activities?
====================================================================================

{test_prep}
Total Percentage: {test_prep_total}

If " +:+ String dquote ("other" +:+ String dquote (" above please specify.
--------------------------------
{test_prep_other}

Now that you have looked over your graded exam, estimate the percentage of points you lost due to each of the following?
========================================================================================================================

{lost_per}
Total Percentage: {lost_per_total}

If " +:+ String dquote ("other" +:+ String dquote (" above please specify.
--------------------------------
{lost_per_other}
")))).

(** ** [str.format] with the dictionary as keyword arguments *)

(** The replacement fields of the four templates are plain names.  The
    embedding follows Python on literal text, on the escapes [{{] and [}}],
    on a single brace ([ValueError]), on a plain field [{name}] (the value
    of [name], or [KeyError]) and on an empty or numeric field ([IndexError]:
    no positional argument is passed).  A compound field (a conversion
    [!r], a format specification [:>8], an attribute or an index) is outside
    this fragment; the embedding answers [ValueError] for it, and no theorem
    below relies on that answer: where text of the survey reaches the
    format string, the theorems ask for brace-free text. *)

Inductive fstate : Type :=
  | FLit
  | FOpen
  | FClose
  | FField (name : string).

Definition field_special (c : ascii) : bool :=
  Ascii.eqb c "{" || Ascii.eqb c "." || Ascii.eqb c "[" || Ascii.eqb c "!"
  || Ascii.eqb c ":".

Fixpoint all_digits (s : string) : bool :=
  match s with
  | EmptyString => true
  | String c s' => PyFloat.is_digit c && all_digits s'
  end.

Section Format.

(** [repr] of a float (the shortest decimal string that reads back). *)
Variable float_str : PyFloat.float → string.

Definition str_of_num (n : pynum) : string :=
  match n with
  | PInt z => pretty z
  | PFloat f => float_str f
  end.

Definition str_of_val (v : pyval) : string :=
  match v with
  | VStr s => s
  | VNonStr p => p
  | VNum n => str_of_num n
  end.

Definition lookup_field (data : gmap string pyval) (name : string) : result string :=
  if all_digits name then Raise IndexError
  else v ← getitem data name; Ok (str_of_val v).

Fixpoint format_from (data : gmap string pyval) (st : fstate) (s : string)
  : result string :=
  match s with
  | EmptyString =>
      match st with
      | FLit => Ok EmptyString
      | _ => Raise ValueError
      end
  | String c s' =>
      match st with
      | FLit =>
          if Ascii.eqb c "{" then format_from data FOpen s'
          else if Ascii.eqb c "}" then format_from data FClose s'
          else r ← format_from data FLit s'; Ok (String c r)
      | FOpen =>
          if Ascii.eqb c "{" then r ← format_from data FLit s'; Ok (String c r)
          else if Ascii.eqb c "}" then Raise IndexError
          else if field_special c then Raise ValueError
          else format_from data (FField (String c EmptyString)) s'
      | FClose =>
          if Ascii.eqb c "}" then r ← format_from data FLit s'; Ok (String c r)
          else Raise ValueError
      | FField name =>
          if Ascii.eqb c "}" then
            v ← lookup_field data name;
            r ← format_from data FLit s';
            Ok (v +:+ r)
          else if field_special c then Raise ValueError
          else format_from data (FField (name +:+ String c EmptyString)) s'
      end
  end.

(** [template.format] applied to the entries of [data]. *)
Definition format (template : string) (data : gmap string pyval) : result string :=
  format_from data FLit template.

End Format.

(** ** [generate_pdfs]: one pass over the questions of a row (lines 105-140) *)

Definition prompt_other : string := "If " +:+ String dquote ("other" +:+ String dquote "").

(** [data] as line 105 and lines 107-108 set it up. *)
Definition init_data (course : string) : gmap string pyval :=
  <["lost_per_total" := VNum (PInt 0)]>
    (<["test_prep_total" := VNum (PInt 0)]>
       (<["test_prep" := VStr ""]>
          (<["lost_per" := VStr ""]>
             (<["course_desig" := VStr course]> ∅)))).

(** [question.split('[')[1][:-1]]. *)
Definition sub_category (question : string) : result string :=
  s ← PyStr.index (PyStr.split "[" question) 1;
  Ok (PyStr.drop_last s).

(** The line a sub-question adds to its category block. *)
Definition item_line (sub_cat : string) (a : answer) : string :=
  "- " +:+ sub_cat +:+ ": " +:+ str_of_answer a +:+ nl.

(** The section a generic question adds to the document (lines 137-138). *)
Definition generic_section (question : string) (a : answer) : string :=
  question +:+ nl +:+ PyStr.repeat_char "=" (String.length question)
  +:+ nl +:+ str_of_answer a +:+ nl +:+ nl.

(** The body of the inner loop (lines 110-138) on the state [(data, rst)]. *)
Definition loop_body (st : gmap string pyval * string) (question : string)
    (a : answer) : result (gmap string pyval * string) :=
  let '(data, rst) := st in
  if bool_decide (question ∈ ["First Name"; "Last Name"]) then
    Ok (<[PyStr.remove_spaces question := val_of_answer a]> data, rst)
  else if PyStr.startswith "What percentage" question then
    sub_cat ← sub_category question;
    data ← iadd data "test_prep" (VStr (item_line sub_cat a));
    let per := parse_percentage a in
    data ← iadd data "test_prep_total" (VNum per);
    Ok (data, rst)
  else if PyStr.startswith "Now that" question then
    sub_cat ← sub_category question;
    data ← iadd data "lost_per" (VStr (item_line sub_cat a));
    let per := parse_percentage a in
    data ← iadd data "lost_per_total" (VNum per);
    Ok (data, rst)
  else if PyStr.startswith prompt_other question then
    if PyStr.endswith_char "1" question then
      Ok (<["lost_per_other" := VStr (str_of_answer a)]> data, rst)
    else
      Ok (<["test_prep_other" := VStr (str_of_answer a)]> data, rst)
  else if PyStr.startswith "Unnamed" question then
    Ok (data, rst)
  else
    Ok (data, rst +:+ generic_section question a).

(** [for question, answer in zip(df.columns, col_info)]. *)
Fixpoint questions_loop (st : gmap string pyval * string)
    (qas : list (string * answer)) : result (gmap string pyval * string) :=
  match qas with
  | [] => Ok st
  | (question, a) :: rest =>
      st' ← loop_body st question a;
      questions_loop st' rest
  end.

(** Lines 105-140 for one row: the dictionary and the format string. *)
Definition compile_row (course : string) (row : list (string * answer))
  : result (gmap string pyval * string) :=
  '(data, rst) ← questions_loop (init_data course, TEMPLATE) row;
  Ok (data, rst +:+ END_TEMPLATE).

(** ** The file system *)

(** A flat map from path strings to file contents: directories exist as
    needed, a path is the string the script builds, and opening a file for
    writing always succeeds. *)
Abbreviation filesystem := (gmap string string).

(** [os.path.join(a, b)] (POSIX). *)
Definition path_join (a b : string) : string :=
  if PyStr.startswith "/" b then b
  else if PyStr.is_empty a || PyStr.endswith_char "/" a then a +:+ b
  else a +:+ "/" +:+ b.

(** [s.endswith(suffix)]. *)
Definition endswith (suffix s : string) : bool :=
  let n := String.length s in
  let k := String.length suffix in
  (k <=? n)%nat && String.eqb (String.substring (n - k) k s) suffix.

(** The name of [path] inside [dir] when [path] is [os.path.join(dir, name)]
    for a name without a separator. *)
Definition name_in_dir (dir path : string) : option string :=
  let prefix :=
    if PyStr.is_empty dir || PyStr.endswith_char "/" dir then dir
    else dir +:+ "/" in
  if PyStr.startswith prefix path then
    let name := String.substring (String.length prefix)
                  (String.length path - String.length prefix) path in
    if PyStr.contains "/" name || PyStr.is_empty name then None else Some name
  else None.

(** Whether [glob.glob(os.path.join(dir, "*" + ext))] lists [path]: a file
    directly in [dir] whose name ends with [ext] and does not start with a
    dot (a leading [*] does not match hidden files).  The directory is taken
    literally: one whose name has a [*], a [?] or a bracket is outside the
    model. *)
Definition glob_match (dir ext path : string) : bool :=
  match name_in_dir dir path with
  | Some name => negb (PyStr.startswith "." name) && endswith ext name
  | None => false
  end.

(** ** [generate_pdfs]: files (lines 142-157) *)

(** [data['LastName'].lower()]: only a string has the method. *)
Definition lower_of (v : pyval) : result string :=
  match v with
  | VStr s => Ok (PyStr.lower s)
  | VNonStr _ | VNum _ => Raise AttributeError
  end.

(** [os.path.basename(path)]: what follows the last separator. *)
Definition basename (path : string) : string :=
  List.last (PyStr.split "/" path) EmptyString.

(** The job name [pdflatex] derives from the [.tex] file it is given: the
    file name without its extension. *)
Definition job_name (tex_file : string) : string :=
  PyStr.drop_last (PyStr.drop_last (PyStr.drop_last
    (PyStr.drop_last (basename tex_file)))).

(** The extensions lines 154-157 remove, in the order of the loop. *)
Definition globules : list string := [".aux"; ".log"; ".out"; ".rst"; ".tex"].

(** Lines 155-157 for one pattern: every listed file is removed. *)
Definition remove_glob (dir : string) (fs : filesystem) (ext : string) : filesystem :=
  filter (λ kv : string * string, glob_match dir ext kv.1 = false) fs.

(** Lines 154-157. *)
Definition cleanup (dir : string) (fs : filesystem) : filesystem :=
  fold_left (remove_glob dir) globules fs.

(** The table [pd.read_csv] returns: the labels of the columns and the rows
    of cells; [df.iterrows()] yields the rows in order. *)
Record survey : Type := {
  columns : list string;
  rows : list (list answer)
}.

Section GeneratePdfs.

Variable float_str : PyFloat.float → string.

(** [rst2latex.py]: the LaTeX source for a document, or [None] when the
    command fails and writes nothing. *)
Variable rst2latex : string → option string.

(** [pdflatex]: for a LaTeX source, the PDF document when the command
    succeeds, and the by-products it writes as pairs of an extension and a
    content ([.aux], [.log], [.out], ...); all go under the job name in the
    output directory. *)
Variable pdflatex : string → option string * list (string * string).

(** Line 149: the command reads [rst_file] and writes [tex_file]. *)
Definition run_rst2latex (rst_file tex_file : string) (fs : filesystem) : filesystem :=
  match fs !! rst_file with
  | Some text =>
      match rst2latex text with
      | Some tex => <[tex_file := tex]> fs
      | None => fs
      end
  | None => fs
  end.

(** Lines 150-151: the command reads [tex_file] and writes its outputs in
    [dir]: the by-products, then the document. *)
Definition run_pdflatex (dir tex_file : string) (fs : filesystem) : filesystem :=
  match fs !! tex_file with
  | Some tex =>
      let job := job_name tex_file in
      let fs := fold_left (λ (fs : filesystem) (out : string * string),
                             <[path_join dir (job +:+ out.1) := out.2]> fs)
                          (pdflatex tex).2 fs in
      match (pdflatex tex).1 with
      | Some pdf => <[path_join dir (job +:+ ".pdf") := pdf]> fs
      | None => fs
      end
  | None => fs
  end.

(** Lines 142-151 for one compiled row.  An exception leaves the files as
    they are at that point: [open(rst_file, 'w')] has already truncated the
    file when [rst.format] raises. *)
Definition write_report (dir : string) (st : gmap string pyval * string)
    (fs : filesystem) : filesystem * result unit :=
  let '(data, rst) := st in
  match v ← getitem data "LastName"; lower_of v with
  | Raise e => (fs, Raise e)
  | Ok key =>
      let rst_file := path_join dir (key +:+ ".rst") in
      let tex_file := path_join dir (key +:+ ".tex") in
      let fs := <[rst_file := EmptyString]> fs in
      match format float_str rst data with
      | Raise e => (fs, Raise e)
      | Ok text =>
          let fs := <[rst_file := text]> fs in
          let fs := run_rst2latex rst_file tex_file fs in
          let fs := run_pdflatex dir tex_file fs in
          (fs, Ok tt)
      end
  end.

(** Lines 104-151 for one row. *)
Definition process_row (course dir : string) (cols : list string)
    (col_info : list answer) (fs : filesystem) : filesystem * result unit :=
  match compile_row course (zip cols col_info) with
  | Raise e => (fs, Raise e)
  | Ok st => write_report dir st fs
  end.

(** [for student_idx, col_info in df.iterrows()] (lines 104-151). *)
Fixpoint rows_loop (course dir : string) (cols : list string)
    (rs : list (list answer)) (fs : filesystem) : filesystem * result unit :=
  match rs with
  | [] => (fs, Ok tt)
  | col_info :: rest =>
      match process_row course dir cols col_info fs with
      | (fs', Ok _) => rows_loop course dir cols rest fs'
      | (fs', Raise e) => (fs', Raise e)
      end
  end.

(** [generate_pdfs(course, path_to_csv, path_to_directory)] on the table
    read from the CSV file: the rows, then the clean-up.  The directory
    that [os.makedirs] creates and the lines the function prints (the paths
    it removes, in the order [glob] lists them) are not part of the state. *)
Definition generate_pdfs (course : string) (df : survey) (dir : string)
    (fs : filesystem) : filesystem * result unit :=
  match rows_loop course dir (columns df) (rows df) fs with
  | (fs', Ok _) => (cleanup dir fs', Ok tt)
  | (fs', Raise e) => (fs', Raise e)
  end.

End GeneratePdfs.

(** ** [send_email] and [send_emails] *)

(** The message [send_email] builds: headers, the text part and the
    attached file (its name and its bytes). *)
Record email : Type := {
  msg_subject : string;
  msg_from : string;
  msg_to : string;
  msg_cc : string;
  msg_body : string;
  msg_attachment : string * string
}.

(** What a dispatch run leaves behind: the lines printed and the messages
    the SMTP server accepted, both in order. *)
Record dispatch_log : Type := {
  printed : list string;
  sent : list email
}.

Definition print (line : string) (log : dispatch_log) : dispatch_log :=
  {| printed := printed log ++ [line]; sent := sent log |}.

Definition deliver (m : email) (log : dispatch_log) : dispatch_log :=
  {| printed := printed log; sent := sent log ++ [m] |}.

(** A row of the grades table, with the columns and types the docstring of
    [send_emails] asks for. *)
Record grade_row : Type := {
  first_name : string;
  last_name : string;
  email_address : string;
  score : PyFloat.float
}.

Definition FROM : string := "Jason K. Moore <jkm@ucdavis.edu>".
Definition CC : string := "jkm@ucdavis.edu".

Section SendEmails.

Variable float_str : PyFloat.float → string.

(** The SMTP session of lines 203-207 for a message: [true] when every call
    returns (the server took the message), [false] when one of them raises. *)
Variable smtp_session : email → bool.

(** [df['Score'].mean()] of pandas. *)
Variable series_mean : list PyFloat.float → PyFloat.float.

(** [send_email(recipient, subject, body, path_to_attachment)]: the file is
    read first; [FileNotFoundError] and any exception of the SMTP session
    are caught and reported. *)
Definition send_email (recipient subject body path_to_attachment : string)
    (fs : filesystem) (log : dispatch_log) : dispatch_log :=
  match fs !! path_to_attachment with
  | None => print (recipient +:+ " did not turn in a reflection.") log
  | Some payload =>
      let msg := {| msg_subject := subject; msg_from := FROM;
                    msg_to := recipient; msg_cc := CC; msg_body := body;
                    msg_attachment := (basename path_to_attachment, payload) |} in
      if smtp_session msg then
        print ("Successfully sent the mail to: " +:+ recipient) (deliver msg log)
      else
        print ("Failed to send mail to " +:+ recipient) log
  end.

(** Lines 235-238. *)
Definition cover_text (row_score average_grade : PyFloat.float) : string :=
  if PyFloat.ltb row_score average_grade then POOR_TEXT else EmptyString.

(** The path line 242 builds. *)
Definition attachment_path (directory : string) (row : grade_row) : string :=
  path_join directory (PyStr.lower (last_name row) +:+ ".pdf").

(** Lines 235-243 for one row of the grades table. *)
Definition dispatch_row (average_grade : PyFloat.float) (course directory : string)
    (fs : filesystem) (log : dispatch_log) (row : grade_row)
  : result dispatch_log :=
  let poor := cover_text (score row) average_grade in
  let vals : gmap string pyval :=
    <["FirstName" := VStr (first_name row)]> (<["poor_text" := VStr poor]> ∅) in
  body ← format float_str EMAIL_TEMPLATE vals;
  let subject := course +:+ " Midterm Reflection" in
  let pdf := attachment_path directory row in
  Ok (send_email (email_address row) subject body pdf fs log).

(** [for i, row in df.iterrows()] (lines 234-243). *)
Fixpoint dispatch_loop (average_grade : PyFloat.float) (course directory : string)
    (fs : filesystem) (log : dispatch_log) (grades : list grade_row)
  : result dispatch_log :=
  match grades with
  | [] => Ok log
  | row :: rest =>
      log' ← dispatch_row average_grade course directory fs log row;
      dispatch_loop average_grade course directory fs log' rest
  end.

(** [send_emails(grades_csv, course, directory)] on the table read from the
    grades file. *)
Definition send_emails (grades : list grade_row) (course directory : string)
    (fs : filesystem) (log : dispatch_log) : result dispatch_log :=
  let average_grade := series_mean (map score grades) in
  dispatch_loop average_grade course directory fs log grades.

End SendEmails.

(** ** The command line (lines 246-262) *)

Section Main.

Variable float_str : PyFloat.float → string.
Variable rst2latex : string → option string.
Variable pdflatex : string → option string * list (string * string).
Variable smtp_session : email → bool.
Variable series_mean : list PyFloat.float → PyFloat.float.

(** [generate_pdfs(args.course, args.csv, args.directory)], then
    [send_emails(args.email, args.course, args.directory)] when the option
    [-e] was given: [df] is the table of [args.csv] and [email] the table of
    the grades file, if any.  An exception of the first call ends the
    script before the second. *)
Definition main (course : string) (df : survey) (directory : string)
    (email : option (list grade_row)) (fs : filesystem) (log : dispatch_log)
  : filesystem * dispatch_log * result unit :=
  match generate_pdfs float_str rst2latex pdflatex course df directory fs with
  | (fs', Raise e) => (fs', log, Raise e)
  | (fs', Ok _) =>
      match email with
      | None => (fs', log, Ok tt)
      | Some grades =>
          match send_emails float_str smtp_session series_mean grades course
                  directory fs' log with
          | Ok log' => (fs', log', Ok tt)
          | Raise e => (fs', log, Raise e)
          end
      end
  end.

End Main.

(** * Properties *)

(** stdpp blocks the unfolding of string concatenation; the proofs below
    compute with literal prefixes. *)
#[local] Arguments String.append !_ _ /.

(** ** Strings *)

Lemma drop_last_snoc (s : string) (c : ascii) :
  PyStr.drop_last (s +:+ String c EmptyString) = s.
Proof.
  induction s as [|d s IH]; simpl; [reflexivity|].
  rewrite IH. destruct s; reflexivity.
Qed.

Lemma last_char_snoc (s : string) (c : ascii) :
  PyStr.last_char (s +:+ String c EmptyString) = Some c.
Proof.
  induction s as [|d s IH]; simpl; [reflexivity|].
  rewrite IH. destruct s; reflexivity.
Qed.

(** ** The percentage of an answer *)

Lemma parse_percentage_str (s : string) :
  parse_percentage (AStr s) =
  match PyFloat.of_string (PyStr.drop_last s) with
  | Ok f => PFloat f
  | Raise _ => PInt 0
  end.
Proof. reflexivity. Qed.

(** C1, as the code has it.  The slice [answer[:-1]] drops the last
    character whatever it is, and [float] reads what is left: an answer
    [n ++ c] whose [n] is a float literal yields the float of [n], for a
    percent sign [c] as for any other last character; an answer whose
    all-but-last part is not a float literal (the empty string among them)
    and an answer that is not a string yield the integer 0.  The parse is a
    total function: no input makes it raise. *)
Theorem parse_percentage_spec :
  (∀ (n : string) (c : ascii) (f : PyFloat.float),
      PyFloat.of_string n = Ok f →
      parse_percentage (AStr (n +:+ String c EmptyString)) = PFloat f)
  ∧ (∀ (s : string) (e : exn),
      PyFloat.of_string (PyStr.drop_last s) = Raise e →
      parse_percentage (AStr s) = PInt 0)
  ∧ parse_percentage (AStr EmptyString) = PInt 0
  ∧ (∀ p : string, parse_percentage (ANonStr p) = PInt 0).
Proof.
  repeat split.
  - intros n c f Hn. rewrite parse_percentage_str, drop_last_snoc, Hn. reflexivity.
  - intros s e Hs. rewrite parse_percentage_str, Hs. reflexivity.
Qed.

(** The answer "40%" yields the float 40, and so does "40x". *)
Lemma parse_percentage_spec_witness :
  parse_percentage (AStr "40%") = PFloat (PyFloat.of_Z 40)
  ∧ parse_percentage (AStr "40x") = PFloat (PyFloat.of_Z 40)
  ∧ parse_percentage (AStr "n/a") = PInt 0.
Proof.
  split; [|split].
  - apply (proj1 parse_percentage_spec "40" "%"%char). reflexivity.
  - apply (proj1 parse_percentage_spec "40" "x"%char). reflexivity.
  - apply (proj1 (proj2 parse_percentage_spec) "n/a" ValueError). reflexivity.
Defined.

(** C1 as stated fails: the answer "45" has no trailing percent sign, and
    its parse is the float 4, not 0. *)
Lemma parse_percentage_missing_marker :
  PyStr.endswith_char "%" "45" = false
  ∧ parse_percentage (AStr "45") = PFloat (PyFloat.of_Z 4)
  ∧ num_is_zero (parse_percentage (AStr "45")) = false.
Proof. repeat split. Qed.

(** ** The sub-label of a category question *)

(** Following the spec (section 4.1): the position of the first occurrence
    of a character, of its final occurrence, and the substring strictly
    between the first opening and the final closing bracket. *)
Fixpoint first_index (c : ascii) (s : string) : option nat :=
  match s with
  | EmptyString => None
  | String d s' => if Ascii.eqb d c then Some 0 else S <$> first_index c s'
  end.

Fixpoint final_index (c : ascii) (s : string) : option nat :=
  match s with
  | EmptyString => None
  | String d s' =>
      match final_index c s' with
      | Some j => Some (S j)
      | None => if Ascii.eqb d c then Some 0 else None
      end
  end.

Definition spec_sub_label (label : string) : option string :=
  i ← first_index "[" label;
  j ← final_index "]" label;
  if (i <? j)%nat then Some (String.substring (S i) (j - i - 1) label) else None.

Lemma split_no_sep (c : ascii) (s : string) :
  PyStr.contains c s = false → PyStr.split c s = [s].
Proof.
  induction s as [|d s IH]; simpl; [reflexivity|].
  intros H. apply orb_false_iff in H as [Hd Hs].
  rewrite Hd, (IH Hs). reflexivity.
Qed.

Lemma split_at_first (c : ascii) (pre rest : string) :
  PyStr.contains c pre = false →
  PyStr.split c (pre +:+ String c rest) = pre :: PyStr.split c rest.
Proof.
  induction pre as [|d pre IH]; simpl.
  - intros _. rewrite Ascii.eqb_refl. reflexivity.
  - intros H. apply orb_false_iff in H as [Hd Hs].
    rewrite Hd, (IH Hs). reflexivity.
Qed.

Lemma contains_app (c : ascii) (s t : string) :
  PyStr.contains c (s +:+ t) = PyStr.contains c s || PyStr.contains c t.
Proof.
  induction s as [|d s IH]; simpl; [reflexivity|].
  rewrite IH. apply orb_assoc.
Qed.

Lemma first_index_at (c : ascii) (pre rest : string) :
  PyStr.contains c pre = false →
  first_index c (pre +:+ String c rest) = Some (String.length pre).
Proof.
  induction pre as [|d pre IH]; simpl.
  - intros _. rewrite Ascii.eqb_refl. reflexivity.
  - intros H. apply orb_false_iff in H as [Hd Hs].
    rewrite Hd, (IH Hs). reflexivity.
Qed.

Lemma final_index_snoc (c : ascii) (s : string) :
  final_index c (s +:+ String c EmptyString) = Some (String.length s).
Proof.
  induction s as [|d s IH]; simpl.
  - rewrite Ascii.eqb_refl. reflexivity.
  - rewrite IH. reflexivity.
Qed.

Lemma length_app_string (s t : string) :
  String.length (s +:+ t) = String.length s + String.length t.
Proof. induction s as [|d s IH]; simpl; [reflexivity|]. rewrite IH. reflexivity. Qed.

Lemma substring_prefix (s t : string) :
  String.substring 0 (String.length s) (s +:+ t) = s.
Proof. induction s as [|d s IH]; simpl; [destruct t; reflexivity|]. rewrite IH. reflexivity. Qed.

Lemma substring_middle (pre s t : string) :
  String.substring (String.length pre) (String.length s) (pre +:+ s +:+ t) = s.
Proof.
  induction pre as [|d pre IH]; simpl; [apply substring_prefix|apply IH].
Qed.

Lemma app_string_assoc (s t u : string) : (s +:+ t) +:+ u = s +:+ t +:+ u.
Proof. induction s as [|d s IH]; simpl; [reflexivity|]. rewrite IH. reflexivity. Qed.

(** C6, as the code has it.  The sub-label is [question.split('[')[1][:-1]]:
    the text after the first opening bracket up to the next opening bracket
    (or the end of the label) without its last character.  For a label
    [pre[mid]] with a single opening bracket that ends with the closing one
    this is [mid], the substring strictly between the first opening and the
    final closing bracket; a label without an opening bracket raises
    [IndexError]. *)
Theorem sub_category_spec :
  (∀ pre mid : string,
      PyStr.contains "[" pre = false →
      PyStr.contains "[" mid = false →
      let label := pre +:+ "[" +:+ mid +:+ "]" in
      sub_category label = Ok mid ∧ spec_sub_label label = Some mid)
  ∧ (∀ pre mid rest : string,
      PyStr.contains "[" pre = false →
      PyStr.contains "[" mid = false →
      sub_category (pre +:+ "[" +:+ mid +:+ "[" +:+ rest) = Ok (PyStr.drop_last mid))
  ∧ (∀ label : string,
      PyStr.contains "[" label = false → sub_category label = Raise IndexError).
Proof.
  split; [|split].
  - intros pre mid Hpre Hmid label. subst label. split.
    + unfold sub_category. change ("[" +:+ mid +:+ "]") with (String "[" (mid +:+ "]")).
      rewrite (split_at_first _ _ _ Hpre), split_no_sep.
      * simpl. rewrite drop_last_snoc. reflexivity.
      * rewrite contains_app, Hmid. reflexivity.
    + unfold spec_sub_label.
      change ("[" +:+ mid +:+ "]") with (String "[" (mid +:+ "]")).
      rewrite (first_index_at _ _ _ Hpre). simpl.
      replace (pre +:+ String "[" (mid +:+ "]"))
        with ((pre +:+ String "[" mid) +:+ String "]" EmptyString)
        by (rewrite app_string_assoc; reflexivity).
      rewrite final_index_snoc. simpl.
      rewrite length_app_string. simpl.
      replace (String.length pre <? String.length pre + S (String.length mid))%nat
        with true by (symmetry; apply Nat.ltb_lt; lia).
      replace (String.length pre + S (String.length mid) - String.length pre - 1)
        with (String.length mid) by lia.
      f_equal. rewrite app_string_assoc. simpl.
      rewrite <- (substring_middle (pre +:+ "[") mid "]") at 3.
      rewrite length_app_string, app_string_assoc. simpl.
      f_equal. lia.
  - intros pre mid rest Hpre Hmid. unfold sub_category.
    change ("[" +:+ mid +:+ "[" +:+ rest) with (String "[" (mid +:+ String "[" rest)).
    rewrite (split_at_first _ _ _ Hpre), (split_at_first _ _ _ Hmid). reflexivity.
  - intros label H. unfold sub_category. rewrite (split_no_sep _ _ H). reflexivity.
Qed.

(** The label of the spec's example. *)
Lemma sub_category_spec_witness :
  sub_category "What percentage of time [Reading notes]" = Ok "Reading notes"
  ∧ spec_sub_label "What percentage of time [Reading notes]" = Some "Reading notes".
Proof.
  apply (proj1 sub_category_spec "What percentage of time " "Reading notes");
    reflexivity.
Defined.

(** C6 as stated fails.  When a label is repeated in the header, pandas
    appends [.1] to the second one: the label is a category-1 question, the
    text between its first opening and final closing bracket is
    [Reading notes], and the code extracts [Reading notes].] instead.  A
    second opening bracket cuts the sub-label short in the same way. *)
Lemma sub_category_not_between_brackets :
  let label := "What percentage of time [Reading notes].1" in
  PyStr.startswith "What percentage" label = true
  ∧ spec_sub_label label = Some "Reading notes"
  ∧ sub_category label = Ok "Reading notes]."
  ∧ spec_sub_label "Now that [a [b] c]" = Some "a [b] c"
  ∧ sub_category "Now that [a [b] c]" = Ok "a".
Proof. repeat split. Qed.

(** ** The field classifier *)

(** Following the spec (sections 3, 4.1 and 9): the seven classes, and an
    ordered table of pairs of a predicate and a tag that is read in
    priority order; a label no predicate accepts is a generic question. *)
Inductive qclass : Type :=
  | Identity
  | Category1
  | Category2
  | Override1
  | Override2
  | Ignorable
  | Generic.

Definition is_identity (label : string) : bool :=
  String.eqb label "First Name" || String.eqb label "Last Name".

Definition rules : list ((string → bool) * (string → qclass)) :=
  [ (is_identity, λ _, Identity);
    (PyStr.startswith "What percentage", λ _, Category1);
    (PyStr.startswith "Now that", λ _, Category2);
    (PyStr.startswith prompt_other,
      λ label, if PyStr.endswith_char "1" label then Override2 else Override1);
    (PyStr.startswith "Unnamed", λ _, Ignorable) ].

Fixpoint first_rule (rs : list ((string → bool) * (string → qclass)))
    (label : string) : qclass :=
  match rs with
  | [] => Generic
  | (accepts, tag) :: rs' => if accepts label then tag label else first_rule rs' label
  end.

Definition classify (label : string) : qclass := first_rule rules label.

(** What the compiler does with a sub-question of a category: an item line
    in the block, and the percentage added to the total. *)
Definition add_item (block total : string) (data : gmap string pyval)
    (question : string) (a : answer) : result (gmap string pyval) :=
  sub_cat ← sub_category question;
  data ← iadd data block (VStr (item_line sub_cat a));
  iadd data total (VNum (parse_percentage a)).

(** The handler of each class on the state [(data, rst)]. *)
Definition handle (c : qclass) (st : gmap string pyval * string)
    (question : string) (a : answer) : result (gmap string pyval * string) :=
  match c with
  | Identity => Ok (<[PyStr.remove_spaces question := val_of_answer a]> st.1, st.2)
  | Category1 => data ← add_item "test_prep" "test_prep_total" st.1 question a; Ok (data, st.2)
  | Category2 => data ← add_item "lost_per" "lost_per_total" st.1 question a; Ok (data, st.2)
  | Override1 => Ok (<["test_prep_other" := VStr (str_of_answer a)]> st.1, st.2)
  | Override2 => Ok (<["lost_per_other" := VStr (str_of_answer a)]> st.1, st.2)
  | Ignorable => Ok st
  | Generic => Ok (st.1, st.2 +:+ generic_section question a)
  end.

(** Where a handled question leaves its answer in the state. *)
Definition recorded (c : qclass) (st st' : gmap string pyval * string)
    (question : string) (a : answer) : Prop :=
  match c with
  | Identity => st'.1 !! PyStr.remove_spaces question = Some (val_of_answer a)
  | Category1 =>
      ∃ old sub_cat, st.1 !! "test_prep" = Some (VStr old)
        ∧ st'.1 !! "test_prep" = Some (VStr (old +:+ item_line sub_cat a))
  | Category2 =>
      ∃ old sub_cat, st.1 !! "lost_per" = Some (VStr old)
        ∧ st'.1 !! "lost_per" = Some (VStr (old +:+ item_line sub_cat a))
  | Override1 => st'.1 !! "test_prep_other" = Some (VStr (str_of_answer a))
  | Override2 => st'.1 !! "lost_per_other" = Some (VStr (str_of_answer a))
  | Ignorable => st' = st
  | Generic => st'.2 = st.2 +:+ generic_section question a
  end.

(** A row is routed question by question, in the order of the columns. *)
Fixpoint route (st : gmap string pyval * string) (row : list (string * answer))
  : result (gmap string pyval * string) :=
  match row with
  | [] => Ok st
  | (question, a) :: rest =>
      st' ← handle (classify question) st question a;
      route st' rest
  end.

Lemma is_identity_elem_of (label : string) :
  bool_decide (label ∈ ["First Name"; "Last Name"]) = is_identity label.
Proof.
  unfold is_identity.
  destruct (String.eqb_spec label "First Name") as [->|H1]; [reflexivity|].
  destruct (String.eqb_spec label "Last Name") as [->|H2]; [reflexivity|].
  apply bool_decide_eq_false. intros H.
  apply elem_of_cons in H as [H|H]; [contradiction|].
  apply elem_of_cons in H as [H|H]; [contradiction|].
  apply elem_of_nil in H. exact H.
Qed.

Lemma loop_body_handle (st : gmap string pyval * string) (question : string)
    (a : answer) :
  loop_body st question a = handle (classify question) st question a.
Proof.
  destruct st as [data rst]. unfold loop_body, classify. simpl.
  rewrite is_identity_elem_of.
  destruct (is_identity question); [reflexivity|].
  destruct (PyStr.startswith "What percentage" question).
  { simpl. unfold add_item. destruct (sub_category question) as [sub|e]; [|reflexivity].
    simpl. destruct (iadd data "test_prep" _) as [d1|e]; [|reflexivity].
    simpl. destruct (iadd d1 "test_prep_total" _); reflexivity. }
  destruct (PyStr.startswith "Now that" question).
  { simpl. unfold add_item. destruct (sub_category question) as [sub|e]; [|reflexivity].
    simpl. destruct (iadd data "lost_per" _) as [d1|e]; [|reflexivity].
    simpl. destruct (iadd d1 "lost_per_total" _); reflexivity. }
  destruct (PyStr.startswith prompt_other question).
  { destruct (PyStr.endswith_char "1" question); reflexivity. }
  destruct (PyStr.startswith "Unnamed" question); reflexivity.
Qed.

Lemma questions_loop_route (row : list (string * answer))
    (st : gmap string pyval * string) :
  questions_loop st row = route st row.
Proof.
  revert st. induction row as [|[question a] rest IH]; intros st; simpl; [reflexivity|].
  rewrite loop_body_handle.
  destruct (handle (classify question) st question a); simpl; [apply IH|reflexivity].
Qed.

Lemma iadd_inv (d d' : gmap string pyval) (k : string) (v : pyval) :
  iadd d k v = Ok d' →
  ∃ old new, d !! k = Some old ∧ py_add old v = Ok new ∧ d' = <[k := new]> d.
Proof.
  unfold iadd, getitem. destruct (d !! k) as [old|]; simpl; [|discriminate].
  destruct (py_add old v) as [new|] eqn:E; simpl; [|discriminate].
  intros [= <-]. eauto.
Qed.

Lemma py_add_str_inv (old new : pyval) (s : string) :
  py_add old (VStr s) = Ok new → ∃ o, old = VStr o ∧ new = VStr (o +:+ s).
Proof. destruct old; simpl; try discriminate. intros [= <-]. eauto. Qed.

Lemma py_add_num_inv (old new : pyval) (n : pynum) :
  py_add old (VNum n) = Ok new → ∃ o, old = VNum o ∧ new = VNum (num_add o n).
Proof. destruct old; simpl; try discriminate. intros [= <-]. eauto. Qed.

Lemma add_item_inv (block total : string) (d d' : gmap string pyval)
    (question : string) (a : answer) :
  block ≠ total →
  add_item block total d question a = Ok d' →
  ∃ sub_cat old n,
    sub_category question = Ok sub_cat
    ∧ d !! block = Some (VStr old)
    ∧ d !! total = Some (VNum n)
    ∧ d' = <[total := VNum (num_add n (parse_percentage a))]>
             (<[block := VStr (old +:+ item_line sub_cat a)]> d).
Proof.
  intros Hne. unfold add_item.
  destruct (sub_category question) as [sub|] eqn:Hs; simpl; [|discriminate].
  destruct (iadd d block _) as [d1|] eqn:H1; simpl; [|discriminate].
  intros H2.
  apply iadd_inv in H1 as (o1 & n1 & Ho1 & Ha1 & ->).
  apply py_add_str_inv in Ha1 as (old & -> & ->).
  apply iadd_inv in H2 as (o2 & n2 & Ho2 & Ha2 & ->).
  apply py_add_num_inv in Ha2 as (n & -> & ->).
  rewrite lookup_insert_ne in Ho2 by exact Hne.
  exists sub, old, n. auto.
Qed.

(** One step of the loop.  The questions of a row are routed one by one in
    the order of the columns; every question label is given one class by the
    priority table, the loop body does what the handler of that class does
    and nothing else, the classes are tried in the order identity,
    category 1, category 2, override, ignorable, generic, and right after
    its own step a label the body accepts has its answer in the state unless
    its class is the ignorable one (which leaves the state as it was).  What
    is left of it at the end of the row is another matter, settled once the
    history of every key is known. *)
Lemma loop_body_classified (st : gmap string pyval * string)
    (question : string) (a : answer) :
  (∀ row, questions_loop st row = route st row)
  ∧ loop_body st question a = handle (classify question) st question a
  ∧ (∀ st', loop_body st question a = Ok st' →
       recorded (classify question) st st' question a)
  ∧ (classify question = Identity ↔ is_identity question = true)
  ∧ (classify question = Category1 ↔
       is_identity question = false
       ∧ PyStr.startswith "What percentage" question = true)
  ∧ (classify question = Category2 ↔
       is_identity question = false
       ∧ PyStr.startswith "What percentage" question = false
       ∧ PyStr.startswith "Now that" question = true)
  ∧ (classify question = Override2 ∨ classify question = Override1 ↔
       is_identity question = false
       ∧ PyStr.startswith "What percentage" question = false
       ∧ PyStr.startswith "Now that" question = false
       ∧ PyStr.startswith prompt_other question = true)
  ∧ (classify question = Override2 → PyStr.endswith_char "1" question = true)
  ∧ (classify question = Override1 → PyStr.endswith_char "1" question = false)
  ∧ (classify question = Ignorable ↔
       is_identity question = false
       ∧ PyStr.startswith "What percentage" question = false
       ∧ PyStr.startswith "Now that" question = false
       ∧ PyStr.startswith prompt_other question = false
       ∧ PyStr.startswith "Unnamed" question = true)
  ∧ (classify question = Generic ↔
       is_identity question = false
       ∧ PyStr.startswith "What percentage" question = false
       ∧ PyStr.startswith "Now that" question = false
       ∧ PyStr.startswith prompt_other question = false
       ∧ PyStr.startswith "Unnamed" question = false).
Proof.
  split; [intros row; apply questions_loop_route|].
  split; [apply loop_body_handle|]. split.
  { intros st'. rewrite loop_body_handle. destruct st as [data rst].
    destruct (classify question); simpl.
    - intros [= <-]. simpl. apply lookup_insert_eq.
    - destruct (add_item _ _ _ _ _) as [d'|] eqn:E; simpl; [|discriminate].
      intros [= <-]. apply add_item_inv in E as (sub & old & n & _ & Hb & _ & ->); [|done].
      exists old, sub. split; [exact Hb|]. simpl.
      rewrite lookup_insert_ne by done. apply lookup_insert_eq.
    - destruct (add_item _ _ _ _ _) as [d'|] eqn:E; simpl; [|discriminate].
      intros [= <-]. apply add_item_inv in E as (sub & old & n & _ & Hb & _ & ->); [|done].
      exists old, sub. split; [exact Hb|]. simpl.
      rewrite lookup_insert_ne by done. apply lookup_insert_eq.
    - intros [= <-]. simpl. apply lookup_insert_eq.
    - intros [= <-]. simpl. apply lookup_insert_eq.
    - intros [= <-]. reflexivity.
    - intros [= <-]. reflexivity. }
  unfold classify. simpl.
  destruct (is_identity question); [intuition congruence|].
  destruct (PyStr.startswith "What percentage" question); [intuition congruence|].
  destruct (PyStr.startswith "Now that" question); [intuition congruence|].
  destruct (PyStr.startswith prompt_other question).
  { destruct (PyStr.endswith_char "1" question); intuition congruence. }
  destruct (PyStr.startswith "Unnamed" question); intuition congruence.
Qed.

(** ** The state after the questions of a row *)

(** What one question does to the value under a key of [data]: every key
    has a history of its own. *)
Definition block_step (question : string) (a : answer) (v : pyval) : pyval :=
  match v, sub_category question with
  | VStr old, Ok sub_cat => VStr (old +:+ item_line sub_cat a)
  | _, _ => v
  end.

Definition total_step (a : answer) (v : pyval) : pyval :=
  match v with
  | VNum n => VNum (num_add n (parse_percentage a))
  | _ => v
  end.

Definition key_step (k : string) (old : option pyval) (qa : string * answer)
  : option pyval :=
  match classify qa.1 with
  | Identity =>
      if decide (k = PyStr.remove_spaces qa.1) then Some (val_of_answer qa.2) else old
  | Category1 =>
      if decide (k = "test_prep") then block_step qa.1 qa.2 <$> old
      else if decide (k = "test_prep_total") then total_step qa.2 <$> old
      else old
  | Category2 =>
      if decide (k = "lost_per") then block_step qa.1 qa.2 <$> old
      else if decide (k = "lost_per_total") then total_step qa.2 <$> old
      else old
  | Override1 =>
      if decide (k = "test_prep_other") then Some (VStr (str_of_answer qa.2)) else old
  | Override2 =>
      if decide (k = "lost_per_other") then Some (VStr (str_of_answer qa.2)) else old
  | Ignorable | Generic => old
  end.

(** The text the generic questions of a row add to the document. *)
Fixpoint generic_text (row : list (string * answer)) : string :=
  match row with
  | [] => EmptyString
  | (question, a) :: rest =>
      match classify question with
      | Generic => generic_section question a +:+ generic_text rest
      | _ => generic_text rest
      end
  end.

Lemma app_string_nil_r (s : string) : s +:+ EmptyString = s.
Proof. induction s as [|c s IH]; simpl; [reflexivity|]. rewrite IH. reflexivity. Qed.

Lemma loop_body_inv (data data' : gmap string pyval) (rst rst' : string)
    (question : string) (a : answer) :
  loop_body (data, rst) question a = Ok (data', rst') →
  (∀ k, data' !! k = key_step k (data !! k) (question, a))
  ∧ rst' = rst +:+ generic_text [(question, a)].
Proof.
  rewrite loop_body_handle. unfold key_step. simpl.
  destruct (classify question); simpl.
  - intros [= <- <-]. split; [|symmetry; apply app_string_nil_r].
    intros k. rewrite lookup_insert. repeat case_decide; congruence.
  - destruct (add_item _ _ _ _ _) as [d'|] eqn:E; simpl; [|discriminate].
    intros [= <- <-]. split; [|symmetry; apply app_string_nil_r].
    apply add_item_inv in E as (sub & old & n & Hs & Hb & Ht & ->); [|done].
    intros k. rewrite !lookup_insert. unfold block_step.
    repeat case_decide; subst; try congruence;
      rewrite ?Hb, ?Ht; simpl; rewrite ?Hs; reflexivity.
  - destruct (add_item _ _ _ _ _) as [d'|] eqn:E; simpl; [|discriminate].
    intros [= <- <-]. split; [|symmetry; apply app_string_nil_r].
    apply add_item_inv in E as (sub & old & n & Hs & Hb & Ht & ->); [|done].
    intros k. rewrite !lookup_insert. unfold block_step.
    repeat case_decide; subst; try congruence;
      rewrite ?Hb, ?Ht; simpl; rewrite ?Hs; reflexivity.
  - intros [= <- <-]. split; [|symmetry; apply app_string_nil_r].
    intros k. rewrite lookup_insert. repeat case_decide; congruence.
  - intros [= <- <-]. split; [|symmetry; apply app_string_nil_r].
    intros k. rewrite lookup_insert. repeat case_decide; congruence.
  - intros [= <- <-]. split; [reflexivity|symmetry; apply app_string_nil_r].
  - intros [= <- <-]. split; [reflexivity|]. rewrite app_string_nil_r. reflexivity.
Qed.

#[local] Arguments loop_body : simpl never.

Lemma questions_loop_inv (row : list (string * answer))
    (data data' : gmap string pyval) (rst rst' : string) :
  questions_loop (data, rst) row = Ok (data', rst') →
  (∀ k, data' !! k = fold_left (key_step k) row (data !! k))
  ∧ rst' = rst +:+ generic_text row.
Proof.
  revert data rst. induction row as [|[question a] rest IH]; intros data rst; simpl.
  - intros [= <- <-]. split; [reflexivity|symmetry; apply app_string_nil_r].
  - destruct (loop_body (data, rst) question a) as [[d1 r1]|] eqn:E; simpl; [|discriminate].
    intros H. apply IH in H as [Hk Hr].
    apply loop_body_inv in E as [Hk1 Hr1]. split.
    + intros k. rewrite Hk, Hk1. reflexivity.
    + rewrite Hr, Hr1. simpl.
      destruct (classify question); simpl;
        rewrite ?app_string_nil_r, ?app_string_assoc; reflexivity.
Qed.

(** The entries the loop relies on: the two blocks are strings and the two
    totals are numbers. *)
Definition typed (data : gmap string pyval) : Prop :=
  (∃ s, data !! "test_prep" = Some (VStr s))
  ∧ (∃ s, data !! "lost_per" = Some (VStr s))
  ∧ (∃ n, data !! "test_prep_total" = Some (VNum n))
  ∧ (∃ n, data !! "lost_per_total" = Some (VNum n)).

(** Every label of a category question has an opening bracket. *)
Definition bracketed (row : list (string * answer)) : bool :=
  forallb (λ qa : string * answer,
             match classify qa.1 with
             | Category1 | Category2 => PyStr.contains "[" qa.1
             | _ => true
             end) row.

Lemma classify_Identity (question : string) :
  classify question = Identity →
  question = "First Name" ∨ question = "Last Name".
Proof.
  unfold classify. simpl. unfold is_identity.
  destruct (String.eqb_spec question "First Name"); [auto|].
  destruct (String.eqb_spec question "Last Name"); [auto|]. simpl.
  destruct (PyStr.startswith "What percentage" question); [discriminate|].
  destruct (PyStr.startswith "Now that" question); [discriminate|].
  destruct (PyStr.startswith prompt_other question);
    [destruct (PyStr.endswith_char "1" question); discriminate|].
  destruct (PyStr.startswith "Unnamed" question); discriminate.
Qed.

Lemma split_two (c : ascii) (s : string) :
  PyStr.contains c s = true → ∃ x y l, PyStr.split c s = x :: y :: l.
Proof.
  induction s as [|d s IH]; simpl; [discriminate|].
  destruct (Ascii.eqb d c); simpl.
  - intros _. destruct (PyStr.split c s) as [|y l] eqn:E.
    + destruct s; simpl in E; [discriminate|].
      destruct (Ascii.eqb _ _); [discriminate|].
      destruct (PyStr.split c s); discriminate.
    + eauto.
  - intros H. destruct (IH H) as (x & y & l & ->). eauto.
Qed.

Lemma sub_category_ok (question : string) :
  PyStr.contains "[" question = true → ∃ s, sub_category question = Ok s.
Proof.
  intros H. unfold sub_category.
  destruct (split_two _ _ H) as (x & y & l & ->). simpl. eauto.
Qed.

Lemma typed_init (course : string) : typed (init_data course).
Proof. unfold typed, init_data. repeat split; eexists; reflexivity. Qed.

Lemma loop_body_ok (data : gmap string pyval) (rst : string)
    (question : string) (a : answer) :
  typed data →
  bracketed [(question, a)] = true →
  ∃ data' rst', loop_body (data, rst) question a = Ok (data', rst') ∧ typed data'.
Proof.
  intros (Hb1 & Hb2 & Ht1 & Ht2) Hbr. unfold bracketed in Hbr. simpl in Hbr.
  rewrite andb_true_r in Hbr.
  assert (Hok : ∃ data' rst', loop_body (data, rst) question a = Ok (data', rst')).
  { rewrite loop_body_handle. destruct (classify question); simpl; eauto.
    - unfold add_item. destruct (sub_category_ok _ Hbr) as [s ->]. simpl.
      destruct Hb1 as [b Hb1]. destruct Ht1 as [n Ht1].
      unfold iadd, getitem. rewrite Hb1. simpl.
      rewrite lookup_insert_ne by done. rewrite Ht1. simpl. eauto.
    - unfold add_item. destruct (sub_category_ok _ Hbr) as [s ->]. simpl.
      destruct Hb2 as [b Hb2]. destruct Ht2 as [n Ht2].
      unfold iadd, getitem. rewrite Hb2. simpl.
      rewrite lookup_insert_ne by done. rewrite Ht2. simpl. eauto. }
  destruct Hok as (data' & rst' & Hok). exists data', rst'. split; [exact Hok|].
  apply loop_body_inv in Hok as [Hk _].
  destruct Hb1 as [b1 Hb1], Hb2 as [b2 Hb2], Ht1 as [n1 Ht1], Ht2 as [n2 Ht2].
  unfold typed. rewrite !Hk, Hb1, Hb2, Ht1, Ht2. unfold key_step. simpl.
  destruct (classify question) eqn:Hc; simpl;
    try (repeat split; eexists; reflexivity).
  - apply classify_Identity in Hc as [-> | ->]; simpl;
      repeat split; eexists; reflexivity.
  - unfold block_step. destruct (sub_category question);
      repeat split; eexists; reflexivity.
  - unfold block_step. destruct (sub_category question);
      repeat split; eexists; reflexivity.
Qed.

Lemma questions_loop_ok (row : list (string * answer))
    (data : gmap string pyval) (rst : string) :
  typed data →
  bracketed row = true →
  ∃ data' rst', questions_loop (data, rst) row = Ok (data', rst') ∧ typed data'.
Proof.
  revert data rst. induction row as [|[question a] rest IH]; intros data rst Ht Hb.
  - simpl. eauto.
  - unfold bracketed in Hb. simpl in Hb. apply andb_true_iff in Hb as [Hq Hrest].
    destruct (loop_body_ok data rst question a Ht) as (d1 & r1 & E & Ht1).
    { unfold bracketed. simpl. rewrite Hq. reflexivity. }
    simpl. rewrite E. simpl. apply IH; assumption.
Qed.

(** ** The totals of the two categories *)

#[global] Instance qclass_eq_dec : EqDecision qclass.
Proof. solve_decision. Defined.

(** Following the spec (section 8): the answers of the sub-questions of a
    category, in the order of the row, and the sum of their parsed values
    (accumulated from the integer 0, left to right). *)
Fixpoint category_answers (c : qclass) (row : list (string * answer)) : list answer :=
  match row with
  | [] => []
  | (question, a) :: rest =>
      if decide (classify question = c) then a :: category_answers c rest
      else category_answers c rest
  end.

Definition sum_from (start : pynum) (answers : list answer) : pynum :=
  fold_left num_add (map parse_percentage answers) start.

Definition sum_percentages (answers : list answer) : pynum :=
  sum_from (PInt 0) answers.

Lemma total_history_1 (row : list (string * answer)) (n : pynum) :
  fold_left (key_step "test_prep_total") row (Some (VNum n))
  = Some (VNum (sum_from n (category_answers Category1 row))).
Proof.
  revert n. induction row as [|[question a] rest IH]; intros n; simpl; [reflexivity|].
  unfold key_step at 2. simpl.
  destruct (classify question) eqn:Hc; simpl; try apply IH.
  all: apply classify_Identity in Hc as [-> | ->]; simpl; apply IH.
Qed.

Lemma total_history_2 (row : list (string * answer)) (n : pynum) :
  fold_left (key_step "lost_per_total") row (Some (VNum n))
  = Some (VNum (sum_from n (category_answers Category2 row))).
Proof.
  revert n. induction row as [|[question a] rest IH]; intros n; simpl; [reflexivity|].
  unfold key_step at 2. simpl.
  destruct (classify question) eqn:Hc; simpl; try apply IH.
  all: apply classify_Identity in Hc as [-> | ->]; simpl; apply IH.
Qed.

Lemma compile_row_ok (course : string) (row : list (string * answer)) :
  bracketed row = true →
  ∃ data, compile_row course row
          = Ok (data, (TEMPLATE +:+ generic_text row) +:+ END_TEMPLATE)
    ∧ typed data
    ∧ ∀ k, data !! k = fold_left (key_step k) row (init_data course !! k).
Proof.
  intros Hb.
  destruct (questions_loop_ok row (init_data course) TEMPLATE (typed_init course) Hb)
    as (data & rst & E & Ht).
  exists data. unfold compile_row. rewrite E. simpl.
  apply questions_loop_inv in E as [Hk ->]. auto.
Qed.

Lemma category_answers_perm (c : qclass) (row row' : list (string * answer)) :
  Permutation row row' →
  Permutation (category_answers c row) (category_answers c row').
Proof.
  induction 1 as [|[q a] l l' _ IH|[q a] [q' a'] l|l l' l'' _ IH1 _ IH2]; simpl.
  - constructor.
  - destruct (decide (classify q = c)); [constructor|]; exact IH.
  - destruct (decide (classify q' = c)), (decide (classify q = c));
      try reflexivity. constructor.
  - etransitivity; eassumption.
Qed.

(** *** Whole-number percentages add exactly *)

Definition sf_eqb (x y : PyFloat.float) : bool :=
  match x, y with
  | S754_zero a, S754_zero b => Bool.eqb a b
  | S754_infinity a, S754_infinity b => Bool.eqb a b
  | S754_nan, S754_nan => true
  | S754_finite a m e, S754_finite b m' e' =>
      Bool.eqb a b && Pos.eqb m m' && Z.eqb e e'
  | _, _ => false
  end.

Lemma sf_eqb_eq (x y : PyFloat.float) : sf_eqb x y = true → x = y.
Proof.
  destruct x, y; simpl; try discriminate; try reflexivity.
  - intros H. apply Bool.eqb_prop in H. congruence.
  - intros H. apply Bool.eqb_prop in H. congruence.
  - intros H. apply andb_true_iff in H as [H He].
    apply andb_true_iff in H as [Hs Hm].
    apply Bool.eqb_prop in Hs. apply Pos.eqb_eq in Hm. apply Z.eqb_eq in He.
    congruence.
Qed.

(** The float of a whole number. *)
Definition whole (k : nat) : pynum := PFloat (PyFloat.of_Z (Z.of_nat k)).

(** The bound of the exhaustive check below: twice a full 100 percent. *)
Definition whole_bound : nat := 200.

Definition exact_below (bound : nat) : bool :=
  forallb (λ s,
    forallb (λ k,
      sf_eqb (PyFloat.add (PyFloat.of_Z (Z.of_nat s)) (PyFloat.of_Z (Z.of_nat k)))
             (PyFloat.of_Z (Z.of_nat (s + k))))
      (seq 0 (S bound - s)))
    (seq 0 (S bound)).

Lemma exact_below_bound : exact_below whole_bound = true.
Proof. vm_compute. reflexivity. Qed.

Lemma exact_below_add (bound s k : nat) :
  exact_below bound = true →
  (s + k ≤ bound)%nat →
  PyFloat.add (PyFloat.of_Z (Z.of_nat s)) (PyFloat.of_Z (Z.of_nat k))
  = PyFloat.of_Z (Z.of_nat (s + k)).
Proof.
  unfold exact_below. intros E H.
  rewrite forallb_forall in E. specialize (E s).
  rewrite forallb_forall in E.
  apply sf_eqb_eq, E; apply in_seq; lia.
Qed.

Lemma add_whole (s k : nat) :
  (s + k ≤ whole_bound)%nat →
  PyFloat.add (PyFloat.of_Z (Z.of_nat s)) (PyFloat.of_Z (Z.of_nat k))
  = PyFloat.of_Z (Z.of_nat (s + k)).
Proof. exact (exact_below_add whole_bound s k exact_below_bound). Qed.

#[local] Opaque whole_bound.

Lemma num_add_whole (s k : nat) :
  (s + k ≤ whole_bound)%nat → num_add (whole s) (whole k) = whole (s + k).
Proof. intros H. unfold whole, num_add. rewrite add_whole by exact H. reflexivity. Qed.

Lemma num_add_zero_whole (k : nat) :
  (k ≤ whole_bound)%nat → num_add (PInt 0) (whole k) = whole k.
Proof. intros H. exact (num_add_whole 0 k H). Qed.

#[local] Opaque whole.

Lemma sum_whole_from (ks : list nat) (s : nat) :
  (s + list_sum ks ≤ whole_bound)%nat →
  fold_left num_add (map whole ks) (whole s) = whole (s + list_sum ks).
Proof.
  revert s. induction ks as [|k ks IH]; intros s H; cbn [map fold_left].
  - f_equal. simpl. lia.
  - change (list_sum (k :: ks)) with (k + list_sum ks)%nat in *.
    rewrite num_add_whole by lia. rewrite IH by lia. f_equal. lia.
Qed.

Lemma sum_whole (ks : list nat) :
  (list_sum ks ≤ whole_bound)%nat →
  fold_left num_add (map whole ks) (PInt 0)
  = match ks with
    | [] => PInt 0
    | _ :: _ => whole (list_sum ks)
    end.
Proof.
  destruct ks as [|k ks]; [reflexivity|]. cbn [map fold_left]. intros H.
  change (list_sum (k :: ks)) with (k + list_sum ks)%nat in *.
  rewrite num_add_zero_whole by lia. apply sum_whole_from. exact H.
Qed.

(** The value a compiled row reports under a key of [data]. *)
Definition reported (key course : string) (row : list (string * answer))
  : result (option pyval) :=
  st ← compile_row course row; Ok (st.1 !! key).

Lemma list_sum_perm (ks ks' : list nat) :
  Permutation ks ks' → list_sum ks = list_sum ks'.
Proof.
  induction 1 as [|k l l' _ IH|k k' l|l l' l'' _ IH1 _ IH2]; simpl; lia.
Qed.

Lemma sum_percentages_whole_perm (l l' : list answer) (ks : list nat) :
  Permutation l l' →
  map parse_percentage l = map whole ks →
  (list_sum ks ≤ whole_bound)%nat →
  sum_percentages l' = sum_percentages l.
Proof.
  intros Hp Hl Hs.
  assert (Hp' : Permutation (map parse_percentage l') (map whole ks)).
  { rewrite <- Hl. apply Permutation_map. symmetry. exact Hp. }
  apply Permutation_map_inv in Hp' as (ks' & Hl' & Hks).
  unfold sum_percentages, sum_from. rewrite Hl, Hl'.
  rewrite !sum_whole by (rewrite <- ?(list_sum_perm _ _ Hks); exact Hs).
  rewrite <- (list_sum_perm _ _ Hks).
  destruct ks as [|k ks].
  - apply Permutation_nil in Hks as ->. reflexivity.
  - destruct ks' as [|k' ks']; [|reflexivity].
    symmetry in Hks. apply Permutation_nil in Hks. discriminate.
Qed.

(** C3, as the code has it.  For a row whose category labels carry a
    bracket, each reported total is the sum of the parsed values of the
    answers of that category, accumulated from the integer 0 in the order
    of the row with binary64 additions.  The total is the same for every
    permutation of the row when the parsed values are whole numbers whose
    sum is at most 200: their additions are exact.  (Other values round,
    and the order can change the result.) *)
Theorem category_total_spec (course : string) (row : list (string * answer)) :
  bracketed row = true →
  reported "test_prep_total" course row
    = Ok (Some (VNum (sum_percentages (category_answers Category1 row))))
  ∧ reported "lost_per_total" course row
    = Ok (Some (VNum (sum_percentages (category_answers Category2 row))))
  ∧ (∀ (c : qclass) (row' : list (string * answer)) (ks : list nat),
       Permutation row row' →
       map parse_percentage (category_answers c row) = map whole ks →
       (list_sum ks ≤ whole_bound)%nat →
       sum_percentages (category_answers c row')
       = sum_percentages (category_answers c row)).
Proof.
  intros Hb. destruct (compile_row_ok course row Hb) as (data & E & _ & Hk).
  unfold reported. rewrite E. simpl. rewrite !Hk. repeat split.
  - change (init_data course !! "test_prep_total") with (Some (VNum (PInt 0))).
    rewrite total_history_1. reflexivity.
  - change (init_data course !! "lost_per_total") with (Some (VNum (PInt 0))).
    rewrite total_history_2. reflexivity.
  - intros c row' ks Hp. apply sum_percentages_whole_perm.
    apply category_answers_perm. exact Hp.
Qed.

(** The row of the spec's example: 40% and 65% total 105. *)
Lemma category_total_spec_witness :
  reported "test_prep_total" "EME 150A"
    [("First Name", AStr "Ana"); ("Last Name", AStr "Lee");
     ("What percentage of time [Reading notes]", AStr "40%");
     ("What percentage of time [Practice problems]", AStr "65%")]
  = Ok (Some (VNum (PFloat (PyFloat.of_Z 105)))).
Proof.
  refine (eq_trans (proj1 (category_total_spec "EME 150A" _ _)) _);
    reflexivity.
Defined.

(** C3 as stated fails on the order: the answers 33.3%, 33.3% and 33.4%
    total 100.0 in this order and 99.99999999999999 in the reverse order. *)
Lemma category_total_depends_on_order :
  let row := [("What percentage of time [Notes]", AStr "33.3%");
              ("What percentage of time [Homework]", AStr "33.3%");
              ("What percentage of time [Other]", AStr "33.4%")] in
  Permutation row (rev row)
  ∧ reported "test_prep_total" "EME 150A" row
    = Ok (Some (VNum (PFloat (S754_finite false 7036874417766400 (-46)))))
  ∧ reported "test_prep_total" "EME 150A" (rev row)
    = Ok (Some (VNum (PFloat (S754_finite false 7036874417766399 (-46))))).
Proof.
  intros row. split; [apply Permutation_rev|].
  split; vm_compute; reflexivity.
Qed.

(** ** Formatting a template *)

(** A template seen as pieces: literal text without braces, and plain
    replacement fields. *)
Inductive piece : Type :=
  | Lit (text : string)
  | Field (name : string).

Definition flatten_piece (p : piece) : string :=
  match p with
  | Lit text => text
  | Field name => "{" +:+ name +:+ "}"
  end.

Fixpoint flatten (ps : list piece) : string :=
  match ps with
  | [] => EmptyString
  | p :: ps' => flatten_piece p +:+ flatten ps'
  end.

Definition brace_free (s : string) : bool :=
  negb (PyStr.contains "{" s) && negb (PyStr.contains "}" s).

Fixpoint name_chars_ok (s : string) : bool :=
  match s with
  | EmptyString => true
  | String c s' => negb (Ascii.eqb c "}") && negb (field_special c) && name_chars_ok s'
  end.

Definition plain_name (s : string) : bool :=
  negb (PyStr.is_empty s) && name_chars_ok s && negb (all_digits s).

Definition piece_ok (p : piece) : bool :=
  match p with
  | Lit text => brace_free text
  | Field name => plain_name name
  end.

#[local] Arguments field_special : simpl never.

Section Render.

Variable float_str : PyFloat.float → string.
Variable data : gmap string pyval.

(** The pieces in order, then the continuation [k]: the first field that
    [data] lacks raises its [KeyError]. *)
Fixpoint render_then (ps : list piece) (k : result string) : result string :=
  match ps with
  | [] => k
  | Lit text :: ps' => r ← render_then ps' k; Ok (text +:+ r)
  | Field name :: ps' =>
      v ← getitem data name;
      r ← render_then ps' k;
      Ok (str_of_val float_str v +:+ r)
  end.

Lemma format_from_lit (text s : string) :
  brace_free text = true →
  format_from float_str data FLit (text +:+ s)
  = r ← format_from float_str data FLit s; Ok (text +:+ r).
Proof.
  induction text as [|c text IH]; simpl.
  - intros _. destruct (format_from float_str data FLit s); reflexivity.
  - unfold brace_free. simpl. intros H.
    apply andb_true_iff in H as [H1 H2].
    apply negb_true_iff, orb_false_iff in H1 as [H1 H1'].
    apply negb_true_iff, orb_false_iff in H2 as [H2 H2'].
    rewrite H1, H2, IH.
    + destruct (format_from float_str data FLit s); reflexivity.
    + unfold brace_free. rewrite H1', H2'. reflexivity.
Qed.

Lemma format_from_field_scan (name acc s : string) :
  name_chars_ok name = true →
  format_from float_str data (FField acc) (name +:+ String "}" s)
  = v ← lookup_field float_str data (acc +:+ name);
    r ← format_from float_str data FLit s;
    Ok (v +:+ r).
Proof.
  revert acc. induction name as [|c name IH]; intros acc; simpl.
  - intros _. rewrite app_string_nil_r. reflexivity.
  - intros H. apply andb_true_iff in H as [H H3].
    apply andb_true_iff in H as [H1 H2].
    apply negb_true_iff in H1, H2. rewrite H1, H2, (IH _ H3).
    rewrite app_string_assoc. reflexivity.
Qed.

Lemma all_digits_app (s t : string) :
  all_digits (s +:+ t) = all_digits s && all_digits t.
Proof.
  induction s as [|c s IH]; simpl; [reflexivity|].
  rewrite IH. apply andb_assoc.
Qed.

Lemma format_from_field (name s : string) :
  plain_name name = true →
  format_from float_str data FLit (String "{" (name +:+ String "}" s))
  = v ← getitem data name;
    r ← format_from float_str data FLit s;
    Ok (str_of_val float_str v +:+ r).
Proof.
  unfold plain_name. intros H.
  apply andb_true_iff in H as [H Hd]. apply andb_true_iff in H as [He Hc].
  destruct name as [|c name]; [discriminate|]. simpl in Hc.
  apply andb_true_iff in Hc as [Hc Hn]. apply andb_true_iff in Hc as [Hc1 Hc2].
  apply negb_true_iff in Hc1, Hc2, Hd.
  assert (Hb : Ascii.eqb c "{" = false).
  { unfold field_special in Hc2. destruct (Ascii.eqb c "{"); [discriminate|reflexivity]. }
  simpl. rewrite Hb, Hc1, Hc2.
  rewrite (format_from_field_scan name _ s Hn). simpl.
  unfold lookup_field. rewrite Hd.
  destruct (getitem data (String c name)); reflexivity.
Qed.

Lemma flatten_field_app (name s : string) :
  flatten_piece (Field name) +:+ s = String "{" (name +:+ String "}" s).
Proof. simpl. rewrite app_string_assoc. reflexivity. Qed.

Lemma format_from_pieces (ps : list piece) (s : string) :
  forallb piece_ok ps = true →
  format_from float_str data FLit (flatten ps +:+ s)
  = render_then ps (format_from float_str data FLit s).
Proof.
  induction ps as [|p ps IH]; [reflexivity|].
  intros H. apply andb_true_iff in H as [Hp Hps].
  cbn [flatten render_then]. rewrite app_string_assoc.
  destruct p as [text|name].
  - cbn [flatten_piece]. rewrite (format_from_lit _ _ Hp), (IH Hps). reflexivity.
  - rewrite flatten_field_app, (format_from_field name _ Hp), (IH Hps). reflexivity.
Qed.

(** The first field of [ps] that [data] lacks, if any. *)
Fixpoint first_missing (ps : list piece) : option string :=
  match ps with
  | [] => None
  | Lit _ :: ps' => first_missing ps'
  | Field name :: ps' =>
      match data !! name with
      | Some _ => first_missing ps'
      | None => Some name
      end
  end.

Lemma render_then_missing (ps : list piece) (k : result string) (name : string) :
  first_missing ps = Some name → render_then ps k = Raise (KeyError name).
Proof.
  induction ps as [|[text|n] ps IH]; simpl; [discriminate| |].
  - intros H. rewrite (IH H). reflexivity.
  - unfold getitem. destruct (data !! n); simpl.
    + intros H. rewrite (IH H). reflexivity.
    + intros [= <-]. reflexivity.
Qed.

Lemma render_then_complete (ps : list piece) (k : result string) :
  first_missing ps = None →
  ∃ text, render_then ps k = (r ← k; Ok (text +:+ r)).
Proof.
  induction ps as [|[text|n] ps IH]; simpl.
  - intros _. exists EmptyString. destruct k; reflexivity.
  - intros H. destruct (IH H) as [t ->]. exists (text +:+ t).
    destruct k; simpl; [rewrite app_string_assoc|]; reflexivity.
  - unfold getitem. destruct (data !! n) as [v|]; simpl; [|discriminate].
    intros H. destruct (IH H) as [t ->]. exists (str_of_val float_str v +:+ t).
    destruct k; simpl; [rewrite app_string_assoc|]; reflexivity.
Qed.

End Render.

(** The three templates as pieces. *)

Definition template_pieces : list piece :=
  [ Lit ("===============================================================================
");
    Field "course_desig";
    Lit (" Midterm Reflection
===============================================================================

Student
=======

");
    Field "FirstName";
    Lit (" ");
    Field "LastName";
    Lit ("

") ].

Lemma template_pieces_flatten : TEMPLATE = flatten template_pieces.
Proof. reflexivity. Qed.

Lemma template_pieces_ok : forallb piece_ok template_pieces = true.
Proof. reflexivity. Qed.

Definition end_pieces : list piece :=
  [ Lit ("
What percentage of your test-preparation time was spent in each of these activities?
====================================================================================

");
    Field "test_prep";
    Lit ("
Total Percentage: ");
    Field "test_prep_total";
    Lit ("

If " +:+ String dquote ("other" +:+ String dquote (" above please specify.
--------------------------------
")));
    Field "test_prep_other";
    Lit ("

Now that you have looked over your graded exam, estimate the percentage of points you lost due to each of the following?
========================================================================================================================

");
    Field "lost_per";
    Lit ("
Total Percentage: ");
    Field "lost_per_total";
    Lit ("

If " +:+ String dquote ("other" +:+ String dquote (" above please specify.
--------------------------------
")));
    Field "lost_per_other";
    Lit ("
") ].

Lemma end_pieces_flatten : END_TEMPLATE = flatten end_pieces.
Proof. reflexivity. Qed.

Lemma end_pieces_ok : forallb piece_ok end_pieces = true.
Proof. reflexivity. Qed.

Definition email_pieces : list piece :=
  [ Field "FirstName";
    Lit (",
");
    Field "poor_text";
    Lit ("
I've attached what you wrote for your midterm reflection. You can use this
information to better prepare for the final exam. If you have any questions
while studying please either come visit me or the TA in the coming week or ask
on Piazza. I've also taken into consideration the comments you left for me in
the reflection. I wish you success!

Jason

Jason K. Moore, PhD
Lecturer, Mechanical and Aerospace Engineering Department
University of California, Davis
faculty.engineering.ucdavis.edu/moore
jkm@ucdavis.edu
530-752-4805") ].

Lemma email_pieces_flatten : EMAIL_TEMPLATE = flatten email_pieces.
Proof. reflexivity. Qed.

Lemma email_pieces_ok : forallb piece_ok email_pieces = true.
Proof. reflexivity. Qed.

(** ** The keys of [data] after a row *)

(** The last answer of a row whose label satisfies [p]. *)
Fixpoint last_of (p : string → bool) (row : list (string * answer)) : option answer :=
  match row with
  | [] => None
  | (question, a) :: rest =>
      match last_of p rest with
      | Some x => Some x
      | None => if p question then Some a else None
      end
  end.

Lemma fold_key_set (k : string) (p : string → bool) (f : answer → pyval) :
  (∀ old qa, key_step k old qa = if p qa.1 then Some (f qa.2) else old) →
  ∀ row old,
    fold_left (key_step k) row old
    = match last_of p row with
      | Some a => Some (f a)
      | None => old
      end.
Proof.
  intros Hstep row. induction row as [|[question a] rest IH]; intros old; simpl;
    [reflexivity|].
  rewrite IH, Hstep. simpl.
  destruct (last_of p rest); [reflexivity|]. destruct (p question); reflexivity.
Qed.

Lemma fold_key_keep (k : string) :
  (∀ old qa, key_step k old qa = old) →
  ∀ row old, fold_left (key_step k) row old = old.
Proof.
  intros Hstep row. induction row as [|qa rest IH]; intros old; simpl;
    [reflexivity|]. rewrite Hstep. apply IH.
Qed.

Lemma classify_cases (question : string) :
  match classify question with
  | Identity => is_identity question = true
  | Category1 =>
      is_identity question = false
      ∧ PyStr.startswith "What percentage" question = true
  | Category2 =>
      is_identity question = false
      ∧ PyStr.startswith "What percentage" question = false
      ∧ PyStr.startswith "Now that" question = true
  | Override1 =>
      PyStr.startswith prompt_other question = true
      ∧ PyStr.endswith_char "1" question = false
  | Override2 =>
      PyStr.startswith prompt_other question = true
      ∧ PyStr.endswith_char "1" question = true
  | Ignorable =>
      PyStr.startswith prompt_other question = false
      ∧ PyStr.startswith "Unnamed" question = true
  | Generic =>
      is_identity question = false
      ∧ PyStr.startswith prompt_other question = false
  end.
Proof.
  unfold classify. simpl.
  destruct (is_identity question); [reflexivity|].
  destruct (PyStr.startswith "What percentage" question); [auto|].
  destruct (PyStr.startswith "Now that" question); [auto|].
  destruct (PyStr.startswith prompt_other question).
  { destruct (PyStr.endswith_char "1" question); auto. }
  destruct (PyStr.startswith "Unnamed" question); auto.
Qed.

Lemma prefix_cons (a b : ascii) (s t : string) :
  String.prefix (String a s) (String b t) = true → a = b.
Proof. simpl. destruct (ascii_dec a b); [auto|discriminate]. Qed.

Lemma prompt_other_class (question : string) :
  PyStr.startswith prompt_other question = true →
  classify question
  = if PyStr.endswith_char "1" question then Override2 else Override1.
Proof.
  intros H. unfold classify. simpl. rewrite H.
  destruct question as [|c question]; [vm_compute in H; discriminate|].
  pose proof (prefix_cons "I" c ("f " +:+ String dquote ("other" +:+ String dquote ""))
                question H) as <-.
  reflexivity.
Qed.

Lemma key_course (old : option pyval) (qa : string * answer) :
  key_step "course_desig" old qa = old.
Proof.
  unfold key_step. destruct (classify qa.1) eqn:Hc; try reflexivity.
  apply classify_Identity in Hc as [-> | ->]; reflexivity.
Qed.

Lemma key_identity (label : string) (old : option pyval) (qa : string * answer) :
  label = "First Name" ∨ label = "Last Name" →
  key_step (PyStr.remove_spaces label) old qa
  = if String.eqb qa.1 label then Some (val_of_answer qa.2) else old.
Proof.
  intros Hl. unfold key_step.
  destruct (String.eqb_spec qa.1 label) as [->|Hne].
  - destruct Hl as [-> | ->]; reflexivity.
  - destruct (classify qa.1) eqn:Hc;
      try (destruct Hl as [-> | ->]; reflexivity).
    apply classify_Identity in Hc as [E | E]; rewrite E in *;
      destruct Hl as [-> | ->]; try reflexivity; contradiction.
Qed.

Definition is_override1 (label : string) : bool :=
  PyStr.startswith prompt_other label && negb (PyStr.endswith_char "1" label).

Definition is_override2 (label : string) : bool :=
  PyStr.startswith prompt_other label && PyStr.endswith_char "1" label.

Lemma key_override1 (old : option pyval) (qa : string * answer) :
  key_step "test_prep_other" old qa
  = if is_override1 qa.1 then Some (VStr (str_of_answer qa.2)) else old.
Proof.
  unfold key_step, is_override1.
  pose proof (classify_cases qa.1) as Hc.
  destruct (PyStr.startswith prompt_other qa.1) eqn:Hp.
  - rewrite (prompt_other_class _ Hp).
    destruct (PyStr.endswith_char "1" qa.1); reflexivity.
  - destruct (classify qa.1) eqn:E; try reflexivity;
      try (destruct Hc; congruence).
    apply classify_Identity in E as [-> | ->]; reflexivity.
Qed.

Lemma key_override2 (old : option pyval) (qa : string * answer) :
  key_step "lost_per_other" old qa
  = if is_override2 qa.1 then Some (VStr (str_of_answer qa.2)) else old.
Proof.
  unfold key_step, is_override2.
  pose proof (classify_cases qa.1) as Hc.
  destruct (PyStr.startswith prompt_other qa.1) eqn:Hp.
  - rewrite (prompt_other_class _ Hp).
    destruct (PyStr.endswith_char "1" qa.1); reflexivity.
  - destruct (classify qa.1) eqn:E; try reflexivity;
      try (destruct Hc; congruence).
    apply classify_Identity in E as [-> | ->]; reflexivity.
Qed.

(** Whether a row has a question with this label. *)
Definition has_label (label : string) (row : list (string * answer)) : bool :=
  existsb (λ qa : string * answer, String.eqb qa.1 label) row.

(** The answer [data] keeps for an identity label: the last one. *)
Definition answer_of (label : string) (row : list (string * answer)) : option answer :=
  last_of (λ question, String.eqb question label) row.

Lemma answer_of_None (label : string) (row : list (string * answer)) :
  has_label label row = false ↔ answer_of label row = None.
Proof.
  unfold has_label, answer_of. induction row as [|[question a] rest IH]; simpl;
    [tauto|].
  rewrite orb_false_iff, IH.
  destruct (last_of _ rest); destruct (String.eqb question label);
    intuition congruence.
Qed.

Lemma compile_row_inv (course : string) (row : list (string * answer))
    (data : gmap string pyval) (rst : string) :
  compile_row course row = Ok (data, rst) →
  rst = (TEMPLATE +:+ generic_text row) +:+ END_TEMPLATE
  ∧ ∀ k, data !! k = fold_left (key_step k) row (init_data course !! k).
Proof.
  unfold compile_row.
  destruct (questions_loop (init_data course, TEMPLATE) row) as [[d r]|] eqn:E;
    simpl; [|discriminate].
  intros [= <- <-]. apply questions_loop_inv in E as [Hk ->]. auto.
Qed.

Lemma compiled_course (course : string) (row : list (string * answer))
    (data : gmap string pyval) (rst : string) :
  compile_row course row = Ok (data, rst) →
  data !! "course_desig" = Some (VStr course).
Proof.
  intros H. apply compile_row_inv in H as [_ Hk].
  rewrite Hk, (fold_key_keep _ key_course). reflexivity.
Qed.

Lemma compiled_identity (label course : string) (row : list (string * answer))
    (data : gmap string pyval) (rst : string) :
  label = "First Name" ∨ label = "Last Name" →
  compile_row course row = Ok (data, rst) →
  data !! PyStr.remove_spaces label = val_of_answer <$> answer_of label row.
Proof.
  intros Hl H. apply compile_row_inv in H as [_ Hk]. rewrite Hk.
  rewrite (fold_key_set _ (λ question, String.eqb question label) val_of_answer)
    by (intros old qa; apply key_identity; exact Hl).
  fold (answer_of label row).
  destruct Hl as [-> | ->]; destruct (answer_of _ row); reflexivity.
Qed.

Lemma compiled_first_name (course : string) (row : list (string * answer))
    (data : gmap string pyval) (rst : string) :
  compile_row course row = Ok (data, rst) →
  data !! "FirstName" = val_of_answer <$> answer_of "First Name" row.
Proof. exact (compiled_identity "First Name" course row data rst (or_introl eq_refl)). Qed.

Lemma compiled_last_name (course : string) (row : list (string * answer))
    (data : gmap string pyval) (rst : string) :
  compile_row course row = Ok (data, rst) →
  data !! "LastName" = val_of_answer <$> answer_of "Last Name" row.
Proof. exact (compiled_identity "Last Name" course row data rst (or_intror eq_refl)). Qed.

Lemma compiled_override1 (course : string) (row : list (string * answer))
    (data : gmap string pyval) (rst : string) :
  compile_row course row = Ok (data, rst) →
  data !! "test_prep_other"
  = (λ a, VStr (str_of_answer a)) <$> last_of is_override1 row.
Proof.
  intros H. apply compile_row_inv in H as [_ Hk]. rewrite Hk.
  rewrite (fold_key_set _ is_override1 (λ a, VStr (str_of_answer a)))
    by (intros old qa; apply key_override1).
  destruct (last_of is_override1 row); reflexivity.
Qed.

Lemma compiled_override2 (course : string) (row : list (string * answer))
    (data : gmap string pyval) (rst : string) :
  compile_row course row = Ok (data, rst) →
  data !! "lost_per_other"
  = (λ a, VStr (str_of_answer a)) <$> last_of is_override2 row.
Proof.
  intros H. apply compile_row_inv in H as [_ Hk]. rewrite Hk.
  rewrite (fold_key_set _ is_override2 (λ a, VStr (str_of_answer a)))
    by (intros old qa; apply key_override2).
  destruct (last_of is_override2 row); reflexivity.
Qed.

Lemma key_step_some (k : string) (old : option pyval) (qa : string * answer) :
  is_Some old → is_Some (key_step k old qa).
Proof.
  intros [v ->]. unfold key_step.
  destruct (classify qa.1); repeat case_decide; simpl; eauto.
Qed.

Lemma fold_key_some (k : string) (row : list (string * answer)) (old : option pyval) :
  is_Some old → is_Some (fold_left (key_step k) row old).
Proof.
  revert old. induction row as [|qa rest IH]; intros old H; simpl; [exact H|].
  apply IH, key_step_some, H.
Qed.

Lemma compiled_blocks (course : string) (row : list (string * answer))
    (data : gmap string pyval) (rst : string) :
  compile_row course row = Ok (data, rst) →
  is_Some (data !! "test_prep") ∧ is_Some (data !! "test_prep_total")
  ∧ is_Some (data !! "lost_per") ∧ is_Some (data !! "lost_per_total").
Proof.
  intros H. apply compile_row_inv in H as [_ Hk]. rewrite !Hk.
  repeat split; apply fold_key_some; eexists; reflexivity.
Qed.

(** ** Rendering and filing a row *)

Section GenerateProps.

Variable float_str : PyFloat.float → string.
Variable rst2latex : string → option string.
Variable pdflatex : string → option string * list (string * string).

Lemma render_then_app (data : gmap string pyval) (ps qs : list piece)
    (k : result string) :
  render_then float_str data (ps ++ qs) k
  = render_then float_str data ps (render_then float_str data qs k).
Proof.
  induction ps as [|[text|name] ps IH]; simpl; [reflexivity| |]; rewrite IH;
    reflexivity.
Qed.

(** The pieces of the format string of a row. *)
Definition report_pieces (row : list (string * answer)) : list piece :=
  template_pieces ++ Lit (generic_text row) :: end_pieces.

Lemma format_report_prefix (data : gmap string pyval) (tail : string) :
  format float_str (TEMPLATE +:+ tail) data
  = render_then float_str data template_pieces
      (format_from float_str data FLit tail).
Proof.
  unfold format. rewrite template_pieces_flatten.
  apply format_from_pieces, template_pieces_ok.
Qed.

Lemma format_report (data : gmap string pyval) (row : list (string * answer)) :
  brace_free (generic_text row) = true →
  format float_str ((TEMPLATE +:+ generic_text row) +:+ END_TEMPLATE) data
  = render_then float_str data (report_pieces row) (Ok EmptyString).
Proof.
  intros Hg. rewrite app_string_assoc, format_report_prefix.
  unfold report_pieces. rewrite render_then_app. f_equal.
  assert (Hok : forallb piece_ok (Lit (generic_text row) :: end_pieces) = true).
  { simpl. rewrite Hg. reflexivity. }
  pose proof (format_from_pieces float_str data _ EmptyString Hok) as Hp.
  rewrite app_string_nil_r in Hp. cbn [flatten flatten_piece] in Hp.
  rewrite end_pieces_flatten. exact Hp.
Qed.

Lemma rows_loop_app (course dir : string) (cols : list string)
    (pre rest : list (list answer)) (fs : filesystem) :
  rows_loop float_str rst2latex pdflatex course dir cols (pre ++ rest) fs
  = match rows_loop float_str rst2latex pdflatex course dir cols pre fs with
    | (fs1, Ok _) => rows_loop float_str rst2latex pdflatex course dir cols rest fs1
    | (fs1, Raise e) => (fs1, Raise e)
    end.
Proof.
  revert fs. induction pre as [|r pre IH]; intros fs; simpl; [reflexivity|].
  destruct (process_row _ _ _ _ _ _ _ _) as [fs1 [[]|e]]; [apply IH|reflexivity].
Qed.

Lemma write_report_no_last_name (dir : string) (data : gmap string pyval)
    (rst : string) (fs : filesystem) :
  data !! "LastName" = None →
  write_report float_str rst2latex pdflatex dir (data, rst) fs
  = (fs, Raise (KeyError "LastName")).
Proof. intros H. unfold write_report, getitem. rewrite H. reflexivity. Qed.

Lemma write_report_not_str (dir : string) (data : gmap string pyval)
    (rst p : string) (fs : filesystem) :
  data !! "LastName" = Some (VNonStr p) →
  write_report float_str rst2latex pdflatex dir (data, rst) fs
  = (fs, Raise AttributeError).
Proof. intros H. unfold write_report, getitem. rewrite H. reflexivity. Qed.

Lemma write_report_format_raises (dir : string) (data : gmap string pyval)
    (rst last : string) (fs : filesystem) (e : exn) :
  data !! "LastName" = Some (VStr last) →
  format float_str rst data = Raise e →
  write_report float_str rst2latex pdflatex dir (data, rst) fs
  = (<[path_join dir (PyStr.lower last +:+ ".rst") := EmptyString]> fs, Raise e).
Proof.
  intros H Hf. unfold write_report, getitem. rewrite H. simpl. rewrite Hf.
  reflexivity.
Qed.

Lemma write_report_written (dir : string) (data : gmap string pyval)
    (rst last text : string) (fs : filesystem) :
  data !! "LastName" = Some (VStr last) →
  format float_str rst data = Ok text →
  let key := PyStr.lower last in
  let rst_file := path_join dir (key +:+ ".rst") in
  let tex_file := path_join dir (key +:+ ".tex") in
  write_report float_str rst2latex pdflatex dir (data, rst) fs
  = (run_pdflatex pdflatex dir tex_file
       (run_rst2latex rst2latex rst_file tex_file (<[rst_file := text]> fs)),
     Ok tt).
Proof.
  intros H Hf. unfold write_report, getitem. rewrite H. simpl. rewrite Hf.
  simpl. rewrite insert_insert_eq. reflexivity.
Qed.

End GenerateProps.

(** ** Sample collaborators and tables, for the witnesses *)

Module Sample.

Definition float_str (f : PyFloat.float) : string := "<float>".
Definition rst2latex (text : string) : option string := Some text.
Definition pdflatex (tex : string) : option string * list (string * string) :=
  (Some tex, [(".aux", EmptyString); (".log", EmptyString); (".out", EmptyString)]).

Definition other_1 : string := prompt_other +:+ " above please specify.".
Definition other_2 : string := prompt_other +:+ " above please specify..1".

(** The labels of a complete reflection form. *)
Definition labels : list string :=
  ["First Name"; "Last Name";
   "What percentage of time [Reading notes]";
   "What percentage of time [Practice problems]"; other_1;
   "Now that you have looked [Careless mistakes]"; other_2;
   "Comments"; "Unnamed: 8"].

Definition ana : list answer :=
  [AStr "Ana"; AStr "Lee"; AStr "40%"; AStr "65%"; ANonStr "nan";
   AStr "100%"; AStr "none"; AStr "Thanks"; ANonStr "nan"].

Definition bob : list answer :=
  [AStr "Bob"; AStr "LEE"; AStr "50%"; AStr "50%"; AStr "sleep";
   AStr "10%"; ANonStr "nan"; AStr "Hard exam"; ANonStr "nan"].

End Sample.

(** ** Rows without an identity field *)

Section MissingIdentity.

Variable float_str : PyFloat.float → string.
Variable rst2latex : string → option string.
Variable pdflatex : string → option string * list (string * string).

Lemma first_missing_first_name (data : gmap string pyval) (v : pyval) :
  data !! "course_desig" = Some v →
  data !! "FirstName" = None →
  first_missing data template_pieces = Some "FirstName".
Proof. intros H1 H2. unfold template_pieces. simpl. rewrite H1, H2. reflexivity. Qed.

Lemma write_report_no_first_name (course dir : string)
    (row : list (string * answer)) (data : gmap string pyval) (rst last : string)
    (fs : filesystem) :
  compile_row course row = Ok (data, rst) →
  has_label "First Name" row = false →
  data !! "LastName" = Some (VStr last) →
  write_report float_str rst2latex pdflatex dir (data, rst) fs
  = (<[path_join dir (PyStr.lower last +:+ ".rst") := EmptyString]> fs,
     Raise (KeyError "FirstName")).
Proof.
  intros E HF HL. apply write_report_format_raises; [exact HL|].
  pose proof (compiled_course _ _ _ _ E) as Hc.
  pose proof (compiled_first_name _ _ _ _ E) as Hf.
  apply answer_of_None in HF. rewrite HF in Hf. simpl in Hf.
  apply compile_row_inv in E as [-> _].
  rewrite app_string_assoc, format_report_prefix.
  apply render_then_missing. exact (first_missing_first_name _ _ Hc Hf).
Qed.

Lemma process_row_missing_identity (course dir : string) (cols : list string)
    (col_info : list answer) (fs : filesystem) :
  has_label "First Name" (zip cols col_info) = false
  ∨ has_label "Last Name" (zip cols col_info) = false →
  ∃ fs' e, process_row float_str rst2latex pdflatex course dir cols col_info fs
           = (fs', Raise e).
Proof.
  intros H. unfold process_row.
  destruct (compile_row course (zip cols col_info)) as [[data rst]|e] eqn:E;
    [|eauto].
  destruct (data !! "LastName") as [[last|p|n]|] eqn:HL.
  - destruct H as [HF|HN].
    + rewrite (write_report_no_first_name _ _ _ _ _ _ _ E HF HL). eauto.
    + pose proof (compiled_last_name _ _ _ _ E) as Hl.
      apply answer_of_None in HN. rewrite HN in Hl. simpl in Hl. congruence.
  - rewrite (write_report_not_str _ _ _ _ _ _ p _ HL). eauto.
  - unfold write_report, getitem. rewrite HL. simpl. eauto.
  - rewrite (write_report_no_last_name _ _ _ _ _ _ _ HL). eauto.
Qed.

End MissingIdentity.

Section MissingIdentityClaim.

Variable float_str : PyFloat.float → string.
Variable rst2latex : string → option string.
Variable pdflatex : string → option string * list (string * string).

(** C5, as the code has it.  A row that lacks the "First Name" or the
    "Last Name" question makes its processing raise, and nothing catches
    the exception: [generate_pdfs] ends with it at that row, the rows after
    it are never read and the clean-up does not run.  When the category
    labels of the row carry a bracket, the exception is the [KeyError] of
    the missing field: "LastName" before any file is touched, or
    "FirstName" from [rst.format] once the [.rst] file has been opened
    (and left empty). *)
Theorem missing_identity_aborts (course dir : string) (cols : list string)
    (col_info : list answer) (fs : filesystem) :
  has_label "First Name" (zip cols col_info) = false
  ∨ has_label "Last Name" (zip cols col_info) = false →
  (∃ fs' e,
      process_row float_str rst2latex pdflatex course dir cols col_info fs
      = (fs', Raise e)
      ∧ ∀ pre rest fs0,
          rows_loop float_str rst2latex pdflatex course dir cols pre fs0 = (fs, Ok tt) →
          generate_pdfs float_str rst2latex pdflatex course
            {| columns := cols; rows := pre ++ col_info :: rest |} dir fs0
          = (fs', Raise e))
  ∧ (bracketed (zip cols col_info) = true →
     has_label "Last Name" (zip cols col_info) = false →
     process_row float_str rst2latex pdflatex course dir cols col_info fs
     = (fs, Raise (KeyError "LastName")))
  ∧ (∀ last,
     bracketed (zip cols col_info) = true →
     has_label "First Name" (zip cols col_info) = false →
     answer_of "Last Name" (zip cols col_info) = Some (AStr last) →
     process_row float_str rst2latex pdflatex course dir cols col_info fs
     = (<[path_join dir (PyStr.lower last +:+ ".rst") := EmptyString]> fs,
        Raise (KeyError "FirstName"))).
Proof.
  intros H. split; [|split].
  - destruct (process_row_missing_identity float_str rst2latex pdflatex
                course dir cols col_info fs H) as (fs' & e & E).
    exists fs', e. split; [exact E|].
    intros pre rest fs0 Hpre. unfold generate_pdfs. simpl.
    rewrite rows_loop_app, Hpre. simpl. rewrite E. reflexivity.
  - intros Hb HN. unfold process_row.
    destruct (compile_row_ok course _ Hb) as (data & E & _).
    rewrite E. apply write_report_no_last_name.
    rewrite (compiled_last_name _ _ _ _ E).
    apply answer_of_None in HN. rewrite HN. reflexivity.
  - intros last Hb HF HL. unfold process_row.
    destruct (compile_row_ok course _ Hb) as (data & E & _).
    rewrite E. apply (write_report_no_first_name _ _ _ course _ _ _ _ _ _ E HF).
    rewrite (compiled_last_name _ _ _ _ E), HL. reflexivity.
Qed.

End MissingIdentityClaim.

(** A table without the "First Name" column: the row of Lee raises
    [KeyError "FirstName"] and leaves an empty [lee.rst]. *)
Lemma missing_identity_aborts_witness :
  process_row Sample.float_str Sample.rst2latex Sample.pdflatex "EME 150A" "out"
    ["Last Name"; "Comments"] [AStr "Lee"; AStr "fine"] ∅
  = (<["out/lee.rst" := EmptyString]> ∅, Raise (KeyError "FirstName")).
Proof.
  refine (proj2 (proj2 (missing_identity_aborts Sample.float_str Sample.rst2latex
            Sample.pdflatex "EME 150A" "out" ["Last Name"; "Comments"]
            [AStr "Lee"; AStr "fine"] ∅ (or_introl eq_refl))) "Lee" _ _ _);
    reflexivity.
Defined.

(** C5 as stated fails: with two rows and no "First Name" column the run
    stops at the first row with the uncaught [KeyError]; the only file is
    the empty [lee.rst], and nothing was written for the second row. *)
Lemma missing_identity_stops_batch :
  let run := generate_pdfs Sample.float_str Sample.rst2latex Sample.pdflatex
               "EME 150A"
               {| columns := ["Last Name"; "Comments"];
                  rows := [[AStr "Lee"; AStr "fine"]; [AStr "Kim"; AStr "good"]] |}
               "out" ∅ in
  run.2 = Raise (KeyError "FirstName")
  ∧ map_to_list run.1 = [("out/lee.rst", EmptyString)].
Proof. split; vm_compute; reflexivity. Qed.

(** ** Rows without an override question *)

Section MissingOverride.

Variable float_str : PyFloat.float → string.
Variable rst2latex : string → option string.
Variable pdflatex : string → option string * list (string * string).

Lemma first_missing_field (data : gmap string pyval) (ps : list piece)
    (name : string) :
  In (Field name) ps → data !! name = None → is_Some (first_missing data ps).
Proof.
  intros Hin Hn. induction ps as [|[text|n] ps IH]; simpl; [destruct Hin| |].
  - destruct Hin as [Hin|Hin]; [discriminate|]. apply IH, Hin.
  - destruct (data !! n) eqn:E; [|eauto].
    destruct Hin as [[= ->]|Hin]; [congruence|]. apply IH, Hin.
Qed.

Lemma first_missing_report (data : gmap string pyval)
    (row : list (string * answer)) :
  is_Some (data !! "course_desig") → is_Some (data !! "FirstName") →
  is_Some (data !! "LastName") → is_Some (data !! "test_prep") →
  is_Some (data !! "test_prep_total") → is_Some (data !! "lost_per") →
  is_Some (data !! "lost_per_total") →
  first_missing data (report_pieces row)
  = match data !! "test_prep_other", data !! "lost_per_other" with
    | None, _ => Some "test_prep_other"
    | Some _, None => Some "lost_per_other"
    | Some _, Some _ => None
    end.
Proof.
  intros [? H1] [? H2] [? H3] [? H4] [? H5] [? H6] [? H7].
  unfold report_pieces, template_pieces, end_pieces. simpl.
  rewrite H1, H2, H3, H4, H5, H6, H7.
  destruct (data !! "test_prep_other"); [|reflexivity].
  destruct (data !! "lost_per_other"); reflexivity.
Qed.

Lemma process_row_missing_override (course dir : string) (cols : list string)
    (col_info : list answer) (fs : filesystem) :
  brace_free (generic_text (zip cols col_info)) = true →
  last_of is_override1 (zip cols col_info) = None
  ∨ last_of is_override2 (zip cols col_info) = None →
  ∃ fs' e, process_row float_str rst2latex pdflatex course dir cols col_info fs
           = (fs', Raise e).
Proof.
  intros Hg H. unfold process_row.
  destruct (compile_row course (zip cols col_info)) as [[data rst]|e] eqn:E;
    [|eauto].
  destruct (data !! "LastName") as [[last|p|n]|] eqn:HL.
  - assert (Hm : is_Some (first_missing data (report_pieces (zip cols col_info)))).
    { destruct H as [H|H].
      - apply (first_missing_field _ _ "test_prep_other").
        + unfold report_pieces, template_pieces, end_pieces. simpl.
          repeat (first [left; reflexivity | right]).
        + rewrite (compiled_override1 _ _ _ _ E), H. reflexivity.
      - apply (first_missing_field _ _ "lost_per_other").
        + unfold report_pieces, template_pieces, end_pieces. simpl.
          repeat (first [left; reflexivity | right]).
        + rewrite (compiled_override2 _ _ _ _ E), H. reflexivity. }
    destruct Hm as [k Hm].
    rewrite (write_report_format_raises _ _ _ _ _ _ last _ (KeyError k) HL); [eauto|].
    pose proof (compile_row_inv _ _ _ _ E) as [-> _].
    rewrite (format_report _ _ _ Hg). apply render_then_missing, Hm.
  - rewrite (write_report_not_str _ _ _ _ _ _ p _ HL). eauto.
  - unfold write_report, getitem. rewrite HL. simpl. eauto.
  - rewrite (write_report_no_last_name _ _ _ _ _ _ _ HL). eauto.
Qed.

(** C10, as the code has it.  The two override entries of [data] are set
    only by the questions whose label starts with the "other" prompt: the
    last one that ends in 1 fills [lost_per_other], the last other one
    fills [test_prep_other].  When the text of the generic sections has no
    brace and one of the two slots is not filled, the row raises and
    [generate_pdfs] ends with that exception at that row, later rows
    unread; when moreover the category labels carry a bracket and the two
    identity answers are there, the last name being a string, the
    exception is the [KeyError] of the first unfilled slot, raised by
    [rst.format] after the [.rst] file was opened. *)
Theorem missing_override_aborts (course dir : string) (cols : list string)
    (col_info : list answer) (fs : filesystem) :
  brace_free (generic_text (zip cols col_info)) = true →
  last_of is_override1 (zip cols col_info) = None
  ∨ last_of is_override2 (zip cols col_info) = None →
  (∀ data rst,
      compile_row course (zip cols col_info) = Ok (data, rst) →
      data !! "test_prep_other"
      = (λ a, VStr (str_of_answer a)) <$> last_of is_override1 (zip cols col_info)
      ∧ data !! "lost_per_other"
        = (λ a, VStr (str_of_answer a)) <$> last_of is_override2 (zip cols col_info))
  ∧ (∃ fs' e,
      process_row float_str rst2latex pdflatex course dir cols col_info fs
      = (fs', Raise e)
      ∧ ∀ pre rest fs0,
          rows_loop float_str rst2latex pdflatex course dir cols pre fs0 = (fs, Ok tt) →
          generate_pdfs float_str rst2latex pdflatex course
            {| columns := cols; rows := pre ++ col_info :: rest |} dir fs0
          = (fs', Raise e))
  ∧ (∀ first last,
      bracketed (zip cols col_info) = true →
      answer_of "First Name" (zip cols col_info) = Some first →
      answer_of "Last Name" (zip cols col_info) = Some (AStr last) →
      process_row float_str rst2latex pdflatex course dir cols col_info fs
      = (<[path_join dir (PyStr.lower last +:+ ".rst") := EmptyString]> fs,
         Raise (KeyError (match last_of is_override1 (zip cols col_info) with
                          | None => "test_prep_other"
                          | Some _ => "lost_per_other"
                          end)))).
Proof.
  intros Hg H. split; [|split].
  - intros data rst E. split;
      [apply (compiled_override1 _ _ _ _ E)|apply (compiled_override2 _ _ _ _ E)].
  - destruct (process_row_missing_override course dir cols col_info fs Hg H)
      as (fs' & e & E).
    exists fs', e. split; [exact E|].
    intros pre rest fs0 Hpre. unfold generate_pdfs. simpl.
    rewrite rows_loop_app, Hpre. simpl. rewrite E. reflexivity.
  - intros first last Hb HF HL. unfold process_row.
    destruct (compile_row_ok course _ Hb) as (data & E & _).
    rewrite E.
    assert (HL' : data !! "LastName" = Some (VStr last)).
    { rewrite (compiled_last_name _ _ _ _ E), HL. reflexivity. }
    apply write_report_format_raises; [exact HL'|].
    rewrite (format_report _ _ _ Hg). apply render_then_missing.
    destruct (compiled_blocks _ _ _ _ E) as (B1 & B2 & B3 & B4).
    rewrite first_missing_report; try assumption.
    + rewrite (compiled_override1 _ _ _ _ E), (compiled_override2 _ _ _ _ E).
      destruct H as [-> | H2]; [reflexivity|]. rewrite H2.
      destruct (last_of is_override1 _); reflexivity.
    + rewrite (compiled_course _ _ _ _ E). eauto.
    + rewrite (compiled_first_name _ _ _ _ E), HF. eauto.
    + rewrite HL'. eauto.
Qed.

End MissingOverride.

(** A table with no "other" question: the row of Ana Lee raises the
    [KeyError] of the first slot and leaves an empty [lee.rst]. *)
Lemma missing_override_aborts_witness :
  process_row Sample.float_str Sample.rst2latex Sample.pdflatex "EME 150A" "out"
    ["First Name"; "Last Name"; "Comments"] [AStr "Ana"; AStr "Lee"; AStr "Thanks"] ∅
  = (<["out/lee.rst" := EmptyString]> ∅, Raise (KeyError "test_prep_other")).
Proof.
  refine (proj2 (proj2 (missing_override_aborts Sample.float_str Sample.rst2latex
            Sample.pdflatex "EME 150A" "out" ["First Name"; "Last Name"; "Comments"]
            [AStr "Ana"; AStr "Lee"; AStr "Thanks"] ∅ _ (or_introl eq_refl)))
            (AStr "Ana") "Lee" _ _ _);
    reflexivity.
Defined.

(** C10 as stated fails on the kind of the exception.  With no "other"
    question in the table, a closing brace in a free-text answer makes
    [rst.format] raise [ValueError] before it reaches the unfilled slot, and
    a blank last-name cell (a [nan]) raises [AttributeError] at [.lower()],
    before any formatting.  The run aborts in both cases. *)
Lemma missing_override_other_errors :
  let run (row : list answer) :=
    generate_pdfs Sample.float_str Sample.rst2latex Sample.pdflatex "EME 150A"
      {| columns := ["First Name"; "Last Name"; "Comments"]; rows := [row] |}
      "out" ∅ in
  last_of is_override1
    (zip ["First Name"; "Last Name"; "Comments"]
         [AStr "Ana"; AStr "Lee"; AStr "thanks :-}"]) = None
  ∧ (run [AStr "Ana"; AStr "Lee"; AStr "thanks :-}"]).2 = Raise ValueError
  ∧ (run [AStr "Ana"; ANonStr "nan"; AStr "thanks"]).2 = Raise AttributeError
  ∧ map_to_list (run [AStr "Ana"; ANonStr "nan"; AStr "thanks"]).1 = [].
Proof. repeat split; vm_compute; reflexivity. Qed.

(** ** The clean-up of the output directory *)

(** Whether the clean-up removes a path. *)
Definition is_intermediate (dir path : string) : bool :=
  existsb (λ ext, glob_match dir ext path) globules.

Lemma remove_glob_lookup (dir ext path : string) (fs : filesystem) :
  remove_glob dir fs ext !! path
  = if glob_match dir ext path then None else fs !! path.
Proof.
  unfold remove_glob. apply option_eq. intros content.
  rewrite map_lookup_filter_Some. simpl.
  destruct (glob_match dir ext path); split;
    try discriminate; try tauto; intros [_ H]; discriminate.
Qed.

Lemma cleanup_lookup (dir path : string) (fs : filesystem) :
  cleanup dir fs !! path
  = if is_intermediate dir path then None else fs !! path.
Proof.
  unfold cleanup, is_intermediate, globules. simpl.
  rewrite !remove_glob_lookup.
  destruct (glob_match dir ".aux" path), (glob_match dir ".log" path),
    (glob_match dir ".out" path), (glob_match dir ".rst" path),
    (glob_match dir ".tex" path); reflexivity.
Qed.

Section Cleanup.

Variable float_str : PyFloat.float → string.
Variable rst2latex : string → option string.
Variable pdflatex : string → option string * list (string * string).

(** C8, as the code has it.  When the rows are all processed, the clean-up
    removes every file that sits directly in the output directory, has a
    name that does not start with a dot and ends in [.aux], [.log], [.out],
    [.rst] or [.tex], whether this run wrote it or not; every other file is
    as the rows left it. *)
Theorem cleanup_spec (course dir : string) (df : survey) (fs fs' : filesystem) :
  generate_pdfs float_str rst2latex pdflatex course df dir fs = (fs', Ok tt) →
  ∃ fs1,
    rows_loop float_str rst2latex pdflatex course dir (columns df) (rows df) fs
    = (fs1, Ok tt)
    ∧ ∀ path, fs' !! path = if is_intermediate dir path then None else fs1 !! path.
Proof.
  unfold generate_pdfs.
  destruct (rows_loop _ _ _ _ _ _ _ _) as [fs1 [[]|e]]; [|discriminate].
  intros [= <-]. exists fs1. split; [reflexivity|].
  intros path. apply cleanup_lookup.
Qed.

End Cleanup.

(** The sample row of Ana Lee, with a file the patterns do not match. *)
Lemma cleanup_spec_witness :
  ∃ fs1,
    rows_loop Sample.float_str Sample.rst2latex Sample.pdflatex "EME 150A" "out"
      Sample.labels [Sample.ana] (<["out/notes.txt" := "keep"]> ∅)
    = (fs1, Ok tt)
    ∧ ∀ path,
        (generate_pdfs Sample.float_str Sample.rst2latex Sample.pdflatex "EME 150A"
           {| columns := Sample.labels; rows := [Sample.ana] |} "out"
           (<["out/notes.txt" := "keep"]> ∅)).1 !! path
        = if is_intermediate "out" path then None else fs1 !! path.
Proof.
  apply (cleanup_spec Sample.float_str Sample.rst2latex Sample.pdflatex "EME 150A"
           "out" {| columns := Sample.labels; rows := [Sample.ana] |}).
  vm_compute. reflexivity.
Defined.

(** C8 as stated fails: a file of the directory that has nothing to do with
    the run, [thesis.tex], is removed with the intermediate files; a hidden
    one and one in a sub-directory are kept, and so is the document. *)
Lemma cleanup_removes_unrelated :
  let before : filesystem :=
    <["out/thesis.tex" := "mine"]> (<["out/.draft.tex" := "hidden"]>
      (<["out/old/exam.tex" := "nested"]> ∅)) in
  let run := generate_pdfs Sample.float_str Sample.rst2latex Sample.pdflatex
               "EME 150A" {| columns := Sample.labels; rows := [Sample.ana] |}
               "out" before in
  run.2 = Ok tt
  ∧ run.1 !! "out/thesis.tex" = None
  ∧ (map_to_list run.1).*1 = ["out/old/exam.tex"; "out/.draft.tex"; "out/lee.pdf"].
Proof. repeat split; vm_compute; reflexivity. Qed.

(** ** The key of the output files *)

Lemma split_nonempty (c : ascii) (s : string) : PyStr.split c s ≠ [].
Proof.
  induction s as [|d s IH]; simpl; [discriminate|].
  destruct (Ascii.eqb d c); [discriminate|].
  destruct (PyStr.split c s); [contradiction|discriminate].
Qed.

Lemma last_cons_nonempty {A : Type} (x d : A) (l : list A) :
  l ≠ [] → List.last (x :: l) d = List.last l d.
Proof. destruct l; [contradiction|reflexivity]. Qed.

Lemma basename_no_sep (b : string) :
  PyStr.contains "/" b = false → basename b = b.
Proof. intros H. unfold basename. rewrite (split_no_sep _ _ H). reflexivity. Qed.

Lemma basename_join (a b : string) :
  PyStr.contains "/" b = false → basename (a +:+ String "/" b) = b.
Proof.
  intros H. unfold basename. induction a as [|d a IH]; simpl.
  - rewrite (split_no_sep _ _ H). reflexivity.
  - destruct (Ascii.eqb d "/").
    + rewrite last_cons_nonempty by apply split_nonempty. exact IH.
    + pose proof (split_nonempty "/" (a +:+ String "/" b)) as Hne.
      destruct (PyStr.split "/" (a +:+ String "/" b)) as [|h t] eqn:E;
        [contradiction|].
      destruct t as [|h' t].
      * exfalso. clear IH.
        assert (Hc : PyStr.contains "/" (a +:+ String "/" b) = true).
        { rewrite contains_app. simpl. apply orb_true_r. }
        destruct (split_two _ _ Hc) as (x & y & l & E'). congruence.
      * exact IH.
Qed.

Lemma last_char_inv (s : string) (c : ascii) :
  PyStr.last_char s = Some c → ∃ d, s = d +:+ String c EmptyString.
Proof.
  induction s as [|x s IH]; simpl; [discriminate|].
  destruct s as [|y s].
  - intros [= ->]. exists EmptyString. reflexivity.
  - intros H. destruct (IH H) as [d ->]. exists (String x d). reflexivity.
Qed.

Lemma basename_path_join (dir b : string) :
  PyStr.contains "/" b = false → basename (path_join dir b) = b.
Proof.
  intros H. unfold path_join.
  assert (Hs : PyStr.startswith "/" b = false).
  { destruct b as [|c b]; [reflexivity|]. simpl in H.
    apply orb_false_iff in H as [H _]. apply Ascii.eqb_neq in H.
    unfold PyStr.startswith. cbn [String.prefix].
    destruct (ascii_dec "/" c) as [<-|]; [contradiction|reflexivity]. }
  rewrite Hs. destruct (PyStr.is_empty dir) eqn:Ee.
  - destruct dir; [|discriminate]. exact (basename_no_sep b H).
  - cbn [orb]. destruct (PyStr.endswith_char "/" dir) eqn:Es.
    + unfold PyStr.endswith_char in Es.
      destruct (PyStr.last_char dir) as [c|] eqn:E; [|discriminate].
      apply Ascii.eqb_eq in Es as ->. apply last_char_inv in E as [x ->].
      rewrite app_string_assoc. exact (basename_join x b H).
    + exact (basename_join dir b H).
Qed.

Lemma job_name_key (dir key : string) :
  PyStr.contains "/" key = false →
  job_name (path_join dir (key +:+ ".tex")) = key.
Proof.
  intros H. unfold job_name. rewrite basename_path_join.
  - replace (key +:+ ".tex")
      with ((((key +:+ ".") +:+ "t") +:+ "e") +:+ "x")
      by (rewrite !app_string_assoc; reflexivity).
    rewrite !drop_last_snoc. reflexivity.
  - rewrite contains_app, H. reflexivity.
Qed.

Section OutputKey.

Variable float_str : PyFloat.float → string.
Variable rst2latex : string → option string.
Variable pdflatex : string → option string * list (string * string).

(** The text line 147 writes for a row. *)
Definition rendered (course : string) (row : list (string * answer)) : result string :=
  st ← compile_row course row; format float_str st.2 st.1.

(** Where the document of a key ends up. *)
Definition pdf_file (dir key : string) : string :=
  path_join dir (job_name (path_join dir (key +:+ ".tex")) +:+ ".pdf").

Lemma process_row_rendered (course dir : string) (cols : list string)
    (col_info : list answer) (last text : string) (fs : filesystem) :
  answer_of "Last Name" (zip cols col_info) = Some (AStr last) →
  rendered course (zip cols col_info) = Ok text →
  let key := PyStr.lower last in
  let rst_file := path_join dir (key +:+ ".rst") in
  let tex_file := path_join dir (key +:+ ".tex") in
  process_row float_str rst2latex pdflatex course dir cols col_info fs
  = (run_pdflatex pdflatex dir tex_file
       (run_rst2latex rst2latex rst_file tex_file (<[rst_file := text]> fs)),
     Ok tt).
Proof.
  intros HL Hr. unfold rendered in Hr. unfold process_row.
  destruct (compile_row course (zip cols col_info)) as [[data rst]|] eqn:E;
    [|discriminate].
  simpl in Hr. apply write_report_written; [|exact Hr].
  rewrite (compiled_last_name _ _ _ _ E), HL. reflexivity.
Qed.

Lemma typeset_document (dir rst_file tex_file text tex pdf : string)
    (fs : filesystem) :
  rst2latex text = Some tex →
  (pdflatex tex).1 = Some pdf →
  run_pdflatex pdflatex dir tex_file
    (run_rst2latex rst2latex rst_file tex_file (<[rst_file := text]> fs))
  !! path_join dir (job_name tex_file +:+ ".pdf") = Some pdf.
Proof.
  intros Hr Hp. unfold run_rst2latex. rewrite lookup_insert_eq, Hr.
  unfold run_pdflatex. rewrite lookup_insert_eq, Hp. apply lookup_insert_eq.
Qed.

(** C9.  The files of a row are named after the lower-cased last name
    alone.  When two students whose last names agree up to case are both
    processed and typeset, the document of the earlier one is at the path of
    the key after its row, and the document of the later one is there after
    the second row: it has replaced the first, and nothing is raised.  The
    dispatcher builds the path of the attachment from the same key: for a
    key without a path separator it is the path of that document. *)
Theorem output_keyed_by_last_name (course dir : string) (cols : list string)
    (r1 r2 : list answer) (fs : filesystem)
    (last1 last2 text1 text2 tex1 tex2 pdf1 pdf2 : string) :
  answer_of "Last Name" (zip cols r1) = Some (AStr last1) →
  answer_of "Last Name" (zip cols r2) = Some (AStr last2) →
  PyStr.lower last1 = PyStr.lower last2 →
  rendered course (zip cols r1) = Ok text1 →
  rendered course (zip cols r2) = Ok text2 →
  rst2latex text1 = Some tex1 →
  rst2latex text2 = Some tex2 →
  (pdflatex tex1).1 = Some pdf1 →
  (pdflatex tex2).1 = Some pdf2 →
  ∃ fs1 fs2,
    process_row float_str rst2latex pdflatex course dir cols r1 fs = (fs1, Ok tt)
    ∧ process_row float_str rst2latex pdflatex course dir cols r2 fs1 = (fs2, Ok tt)
    ∧ fs1 !! pdf_file dir (PyStr.lower last2) = Some pdf1
    ∧ fs2 !! pdf_file dir (PyStr.lower last2) = Some pdf2
    ∧ ∀ grade : grade_row,
        PyStr.lower (last_name grade) = PyStr.lower last2 →
        PyStr.contains "/" (PyStr.lower last2) = false →
        attachment_path dir grade = pdf_file dir (PyStr.lower last2).
Proof.
  intros HL1 HL2 Hk Hr1 Hr2 Ht1 Ht2 Hp1 Hp2.
  pose proof (process_row_rendered course dir cols r1 last1 text1 fs HL1 Hr1) as P1.
  cbv zeta in P1. rewrite Hk in P1.
  eexists _, _. split; [exact P1|].
  split; [apply (process_row_rendered _ _ _ _ _ _ _ HL2 Hr2)|].
  unfold pdf_file.
  split; [apply (typeset_document _ _ _ _ _ _ _ Ht1 Hp1)|].
  split; [apply (typeset_document _ _ _ _ _ _ _ Ht2 Hp2)|].
  intros grade Hg Hs. unfold attachment_path.
  rewrite (job_name_key _ _ Hs), Hg. reflexivity.
Qed.

End OutputKey.

(** Ana Lee and Bob LEE share the key [lee]: after both rows, [out/lee.pdf]
    is the document of Bob. *)
Lemma output_keyed_by_last_name_witness :
  ∃ text1 text2 fs1 fs2,
    process_row Sample.float_str Sample.rst2latex Sample.pdflatex "EME 150A" "out"
      Sample.labels Sample.ana ∅ = (fs1, Ok tt)
    ∧ process_row Sample.float_str Sample.rst2latex Sample.pdflatex "EME 150A" "out"
        Sample.labels Sample.bob fs1 = (fs2, Ok tt)
    ∧ fs1 !! "out/lee.pdf" = Some text1
    ∧ fs2 !! "out/lee.pdf" = Some text2
    ∧ text1 ≠ text2.
Proof.
  destruct (rendered Sample.float_str "EME 150A" (zip Sample.labels Sample.ana))
    as [text1|] eqn:E1; [|vm_compute in E1; discriminate].
  destruct (rendered Sample.float_str "EME 150A" (zip Sample.labels Sample.bob))
    as [text2|] eqn:E2; [|vm_compute in E2; discriminate].
  destruct (output_keyed_by_last_name Sample.float_str Sample.rst2latex
              Sample.pdflatex "EME 150A" "out" Sample.labels Sample.ana Sample.bob ∅
              "Lee" "LEE" text1 text2 text1 text2 text1 text2
              eq_refl eq_refl eq_refl E1 E2 eq_refl eq_refl eq_refl eq_refl)
    as (fs1 & fs2 & H1 & H2 & H3 & H4 & _).
  exists text1, text2, fs1, fs2. repeat split; try assumption.
  vm_compute in E1, E2. congruence.
Defined.

(** ** The dispatch *)

(** The text of [EMAIL_TEMPLATE] after the cover text. *)
Definition email_closing : string :=
"
I've attached what you wrote for your midterm reflection. You can use this
information to better prepare for the final exam. If you have any questions
while studying please either come visit me or the TA in the coming week or ask
on Piazza. I've also taken into consideration the comments you left for me in
the reflection. I wish you success!

Jason

Jason K. Moore, PhD
Lecturer, Mechanical and Aerospace Engineering Department
University of California, Davis
faculty.engineering.ucdavis.edu/moore
jkm@ucdavis.edu
530-752-4805".

(** [EMAIL_TEMPLATE] filled with a first name and a cover text. *)
Definition email_body (first poor : string) : string :=
  first +:+ ("," +:+ nl) +:+ poor +:+ email_closing.

Lemma format_email (float_str : PyFloat.float → string) (first poor : string) :
  format float_str EMAIL_TEMPLATE
    (<["FirstName" := VStr first]> (<["poor_text" := VStr poor]> ∅))
  = Ok (email_body first poor).
Proof.
  unfold format. rewrite email_pieces_flatten.
  rewrite <- (app_string_nil_r (flatten email_pieces)).
  rewrite (format_from_pieces float_str _ email_pieces EmptyString email_pieces_ok).
  unfold email_pieces. cbn [render_then]. unfold getitem.
  rewrite lookup_insert_eq. rewrite lookup_insert_ne by done.
  rewrite lookup_insert_eq. reflexivity.
Qed.

Lemma SFcompare_swap (x y : PyFloat.float) (c : comparison) :
  SFcompare x y = Some c → SFcompare y x = Some (CompOpp c).
Proof.
  destruct x as [sx|sx| |sx mx ex], y as [sy|sy| |sy my ey]; simpl;
    try discriminate; intros [= <-]; try (destruct sx; reflexivity);
    try (destruct sy; reflexivity); try (destruct sx, sy; reflexivity).
  destruct sx, sy; simpl; try reflexivity; f_equal;
    rewrite (Z.compare_antisym ex ey); destruct (ex ?= ey)%Z; simpl;
    try reflexivity.
  all: rewrite ?CompOpp_involutive, ?Pos.compare_cont_antisym; reflexivity.
Qed.

Lemma leb_not_ltb (m s : PyFloat.float) :
  PyFloat.leb m s = true → PyFloat.ltb s m = false.
Proof.
  unfold PyFloat.leb, PyFloat.ltb, SFleb, SFltb.
  destruct (SFcompare m s) as [c|] eqn:E; [|discriminate].
  rewrite (SFcompare_swap _ _ _ E). destruct c; [reflexivity|reflexivity|discriminate].
Qed.

Lemma eqb_not_ltb (s m : PyFloat.float) :
  PyFloat.eqb s m = true → PyFloat.ltb s m = false.
Proof.
  unfold PyFloat.eqb, PyFloat.ltb, SFeqb, SFltb.
  destruct (SFcompare s m) as [[]|]; try discriminate; reflexivity.
Qed.

Lemma POOR_TEXT_nonempty : POOR_TEXT ≠ EmptyString.
Proof. discriminate. Qed.

Section Dispatch.

Variable float_str : PyFloat.float → string.
Variable smtp_session : email → bool.
Variable series_mean : list PyFloat.float → PyFloat.float.

(** The message built for a row whose document holds [payload]. *)
Definition dispatch_message (average_grade : PyFloat.float) (course dir : string)
    (row : grade_row) (payload : string) : email :=
  {| msg_subject := course +:+ " Midterm Reflection";
     msg_from := FROM;
     msg_to := email_address row;
     msg_cc := CC;
     msg_body := email_body (first_name row) (cover_text (score row) average_grade);
     msg_attachment := (basename (attachment_path dir row), payload) |}.

(** What the dispatch of one row does to the log. *)
Definition deliver_row (average_grade : PyFloat.float) (course dir : string)
    (fs : filesystem) (log : dispatch_log) (row : grade_row) : dispatch_log :=
  send_email smtp_session (email_address row) (course +:+ " Midterm Reflection")
    (email_body (first_name row) (cover_text (score row) average_grade))
    (attachment_path dir row) fs log.

Lemma dispatch_row_deliver (average_grade : PyFloat.float) (course dir : string)
    (fs : filesystem) (log : dispatch_log) (row : grade_row) :
  dispatch_row float_str smtp_session average_grade course dir fs log row
  = Ok (deliver_row average_grade course dir fs log row).
Proof. unfold dispatch_row. rewrite format_email. reflexivity. Qed.

Lemma dispatch_loop_deliver (average_grade : PyFloat.float) (course dir : string)
    (fs : filesystem) (grades : list grade_row) (log : dispatch_log) :
  dispatch_loop float_str smtp_session average_grade course dir fs log grades
  = Ok (fold_left (deliver_row average_grade course dir fs) grades log).
Proof.
  revert log. induction grades as [|row rest IH]; intros log; simpl; [reflexivity|].
  rewrite dispatch_row_deliver. simpl. apply IH.
Qed.

Lemma deliver_row_cases (average_grade : PyFloat.float) (course dir : string)
    (fs : filesystem) (log : dispatch_log) (row : grade_row) :
  deliver_row average_grade course dir fs log row
  = match fs !! attachment_path dir row with
    | None => print (email_address row +:+ " did not turn in a reflection.") log
    | Some payload =>
        let msg := dispatch_message average_grade course dir row payload in
        if smtp_session msg
        then print ("Successfully sent the mail to: " +:+ email_address row)
               (deliver msg log)
        else print ("Failed to send mail to " +:+ email_address row) log
    end.
Proof. reflexivity. Qed.

Lemma deliver_row_printed (average_grade : PyFloat.float) (course dir : string)
    (fs : filesystem) (log : dispatch_log) (row : grade_row) :
  length (printed (deliver_row average_grade course dir fs log row))
  = S (length (printed log)).
Proof.
  rewrite deliver_row_cases. destruct (fs !! attachment_path dir row); simpl.
  - destruct (smtp_session _); simpl; rewrite length_app; simpl; lia.
  - rewrite length_app. simpl. lia.
Qed.

Lemma fold_deliver_printed (average_grade : PyFloat.float) (course dir : string)
    (fs : filesystem) (grades : list grade_row) (log : dispatch_log) :
  length (printed (fold_left (deliver_row average_grade course dir fs) grades log))
  = (length (printed log) + length grades)%nat.
Proof.
  revert log. induction grades as [|row rest IH]; intros log; simpl; [lia|].
  rewrite IH, deliver_row_printed. lia.
Qed.

End Dispatch.

Section DispatchClaims.

Variable float_str : PyFloat.float → string.
Variable smtp_session : email → bool.
Variable series_mean : list PyFloat.float → PyFloat.float.

(** C7.  [send_emails] never raises and dispatches every row in order,
    one printed line per recipient.  For the recipient [row] of a batch
    [pre ++ row :: post]: when the document is not in the directory, the
    only effect is the line "... did not turn in a reflection." and no
    message is sent; when the SMTP session fails, the only effect is the
    line "Failed to send mail to ..."; in both cases the loop goes on with
    the recipients of [post]. *)
Theorem dispatch_failures_are_local (pre post : list grade_row) (row : grade_row)
    (course dir : string) (fs : filesystem) (log : dispatch_log) :
  let grades := (pre ++ row :: post)%list in
  let average_grade := series_mean (map score grades) in
  let before := fold_left (deliver_row smtp_session average_grade course dir fs) pre log in
  let after := deliver_row smtp_session average_grade course dir fs before row in
  let final := fold_left (deliver_row smtp_session average_grade course dir fs) post after in
  send_emails float_str smtp_session series_mean grades course dir fs log = Ok final
  ∧ length (printed final) = (length (printed log) + length grades)%nat
  ∧ (fs !! attachment_path dir row = None →
       after = print (email_address row +:+ " did not turn in a reflection.") before
       ∧ sent after = sent before)
  ∧ (∀ payload,
       fs !! attachment_path dir row = Some payload →
       smtp_session (dispatch_message average_grade course dir row payload) = false →
       after = print ("Failed to send mail to " +:+ email_address row) before
       ∧ sent after = sent before)
  ∧ (∀ payload,
       fs !! attachment_path dir row = Some payload →
       smtp_session (dispatch_message average_grade course dir row payload) = true →
       after = print ("Successfully sent the mail to: " +:+ email_address row)
                 (deliver (dispatch_message average_grade course dir row payload) before)).
Proof.
  intros grades average_grade before after final.
  assert (Hfinal : fold_left (deliver_row smtp_session average_grade course dir fs)
                     grades log = final).
  { unfold grades. rewrite fold_left_app. reflexivity. }
  repeat split.
  - unfold send_emails. fold grades. fold average_grade.
    rewrite dispatch_loop_deliver, Hfinal. reflexivity.
  - rewrite <- Hfinal. apply fold_deliver_printed.
  - unfold after. rewrite deliver_row_cases, H. reflexivity.
  - unfold after. rewrite deliver_row_cases, H. reflexivity.
  - unfold after. rewrite deliver_row_cases, H. simpl. rewrite H0. reflexivity.
  - unfold after. rewrite deliver_row_cases, H. simpl. rewrite H0. reflexivity.
  - intros payload H H0. unfold after. rewrite deliver_row_cases, H. simpl.
    rewrite H0. reflexivity.
Qed.

(** C4.  For the row [row] of a batch [pre ++ row :: post], the cover text
    of its message is the encouragement text exactly when its score is
    strictly below the mean of the scores of the whole batch, and the empty
    text otherwise: in particular when the mean is less than or equal to the
    score, and on a tie.  The mean is computed once, from all the rows,
    before the first row is dispatched. *)
Theorem cover_text_spec (pre post : list grade_row) (row : grade_row)
    (course dir : string) (fs : filesystem) (log : dispatch_log) :
  let grades := (pre ++ row :: post)%list in
  let average_grade := series_mean (map score grades) in
  let poor := cover_text (score row) average_grade in
  (poor = POOR_TEXT ↔ PyFloat.ltb (score row) average_grade = true)
  ∧ (poor = EmptyString ↔ PyFloat.ltb (score row) average_grade = false)
  ∧ (PyFloat.leb average_grade (score row) = true → poor = EmptyString)
  ∧ (PyFloat.eqb (score row) average_grade = true → poor = EmptyString)
  ∧ send_emails float_str smtp_session series_mean grades course dir fs log
    = Ok (fold_left (deliver_row smtp_session average_grade course dir fs) post
            (send_email smtp_session (email_address row)
               (course +:+ " Midterm Reflection")
               (email_body (first_name row) poor)
               (attachment_path dir row) fs
               (fold_left (deliver_row smtp_session average_grade course dir fs)
                  pre log))).
Proof.
  intros grades average_grade poor. unfold poor, cover_text.
  pose proof POOR_TEXT_nonempty as Hne.
  split; [|split; [|split; [|split]]].
  - destruct (PyFloat.ltb (score row) average_grade); split; congruence.
  - destruct (PyFloat.ltb (score row) average_grade); split; congruence.
  - intros H. rewrite (leb_not_ltb _ _ H). reflexivity.
  - intros H. rewrite (eqb_not_ltb _ _ H). reflexivity.
  - unfold send_emails. fold grades. fold average_grade.
    rewrite dispatch_loop_deliver. unfold grades. rewrite fold_left_app. reflexivity.
Qed.

End DispatchClaims.

(** ** A sample dispatch *)

Module SampleDispatch.

(** The mean as the sum divided by the count. *)
Definition series_mean (scores : list PyFloat.float) : PyFloat.float :=
  PyFloat.div (fold_left PyFloat.add scores (PyFloat.of_Z 0))
    (PyFloat.of_Z (Z.of_nat (length scores))).

(** A server that refuses the messages to one address. *)
Definition smtp_session (m : email) : bool :=
  negb (String.eqb (msg_to m) "kim@ucdavis.edu").

Definition ana : grade_row :=
  {| first_name := "Ana"; last_name := "Lee"; email_address := "lee@ucdavis.edu";
     score := PyFloat.of_Z 60 |}.
Definition bo : grade_row :=
  {| first_name := "Bo"; last_name := "Kim"; email_address := "kim@ucdavis.edu";
     score := PyFloat.of_Z 80 |}.
Definition cy : grade_row :=
  {| first_name := "Cy"; last_name := "Ng"; email_address := "ng@ucdavis.edu";
     score := PyFloat.of_Z 85 |}.

Definition documents : filesystem :=
  <["out/lee.pdf" := "%PDF lee"]> (<["out/kim.pdf" := "%PDF kim"]> ∅).

Definition empty_log : dispatch_log := {| printed := []; sent := [] |}.

End SampleDispatch.

(** One message sent, one refused by the server, one recipient without a
    document: three lines, and the loop reaches the last row. *)
Lemma dispatch_failures_are_local_witness :
  ∃ final,
    send_emails Sample.float_str SampleDispatch.smtp_session
      SampleDispatch.series_mean
      [SampleDispatch.ana; SampleDispatch.bo; SampleDispatch.cy]
      "EME 150A" "out" SampleDispatch.documents SampleDispatch.empty_log
    = Ok final
    ∧ printed final = ["Successfully sent the mail to: lee@ucdavis.edu";
                       "Failed to send mail to kim@ucdavis.edu";
                       "ng@ucdavis.edu did not turn in a reflection."]
    ∧ map msg_to (sent final) = ["lee@ucdavis.edu"].
Proof.
  eexists. split.
  - exact (proj1 (dispatch_failures_are_local Sample.float_str
                    SampleDispatch.smtp_session SampleDispatch.series_mean
                    [SampleDispatch.ana] [SampleDispatch.cy] SampleDispatch.bo
                    "EME 150A" "out" SampleDispatch.documents
                    SampleDispatch.empty_log)).
  - split; vm_compute; reflexivity.
Defined.

(** Scores 60, 80 and 85 have mean 75: the first student gets the
    encouragement text, the other two the empty one. *)
Lemma cover_text_spec_witness :
  let mean := SampleDispatch.series_mean
                [PyFloat.of_Z 60; PyFloat.of_Z 80; PyFloat.of_Z 85] in
  mean = PyFloat.of_Z 75
  ∧ cover_text (PyFloat.of_Z 60) mean = POOR_TEXT
  ∧ cover_text (PyFloat.of_Z 80) mean = EmptyString.
Proof.
  intros mean. split; [reflexivity|]. split.
  - apply (proj1 (cover_text_spec Sample.float_str SampleDispatch.smtp_session
                    SampleDispatch.series_mean [] [SampleDispatch.bo; SampleDispatch.cy]
                    SampleDispatch.ana "EME 150A" "out" SampleDispatch.documents
                    SampleDispatch.empty_log)).
    reflexivity.
  - apply (proj1 (proj2 (proj2 (cover_text_spec Sample.float_str
                    SampleDispatch.smtp_session SampleDispatch.series_mean
                    [SampleDispatch.ana] [SampleDispatch.cy] SampleDispatch.bo
                    "EME 150A" "out" SampleDispatch.documents
                    SampleDispatch.empty_log)))).
    reflexivity.
Defined.

(** * Further properties of the script *)

(** ** The clean-up keeps the documents *)

Lemma substring_all (s : string) : String.substring 0 (String.length s) s = s.
Proof. induction s as [|c s IH]; simpl; [reflexivity|]. rewrite IH. reflexivity. Qed.

Lemma last_char_cons (c : ascii) (s : string) :
  s ≠ EmptyString → PyStr.last_char (String c s) = PyStr.last_char s.
Proof. destruct s; [contradiction|reflexivity]. Qed.

(** A non-empty tail of a string ends as the string does. *)
Lemma substring_tail_last (s : string) (n : nat) :
  String.substring n (String.length s - n) s ≠ EmptyString →
  PyStr.last_char (String.substring n (String.length s - n) s) = PyStr.last_char s.
Proof.
  revert n. induction s as [|c s IH]; intros n H.
  - destruct n; simpl in *; contradiction.
  - destruct n as [|n].
    + change (String.length (String c s) - 0)%nat with (String.length (String c s)).
      rewrite substring_all. reflexivity.
    + simpl in *. rewrite (IH n H).
      destruct s as [|d s]; [destruct n; simpl in H; contradiction|reflexivity].
Qed.

Lemma endswith_last_char (ext s : string) (c : ascii) :
  PyStr.last_char ext = Some c →
  endswith ext s = true → PyStr.last_char s = Some c.
Proof.
  intros Hc H. unfold endswith in H. apply andb_true_iff in H as [Hk He].
  apply Nat.leb_le in Hk. apply String.eqb_eq in He.
  assert (He' : String.substring (String.length s - String.length ext)
                  (String.length s - (String.length s - String.length ext)) s
                = ext).
  { replace (String.length s - (String.length s - String.length ext))%nat
      with (String.length ext) by lia. exact He. }
  rewrite <- (substring_tail_last s (String.length s - String.length ext)).
  - rewrite He'. exact Hc.
  - rewrite He'. intros ->. discriminate.
Qed.

Lemma name_in_dir_last (dir path name : string) :
  name_in_dir dir path = Some name →
  PyStr.last_char name = PyStr.last_char path.
Proof.
  unfold name_in_dir.
  destruct (PyStr.startswith _ path); [|discriminate].
  destruct (PyStr.contains "/" _ || PyStr.is_empty _) eqn:E; [discriminate|].
  intros [= <-]. apply substring_tail_last.
  apply orb_false_iff in E as [_ E]. intros H. rewrite H in E. discriminate.
Qed.

Lemma glob_match_last_char (dir ext path : string) (c : ascii) :
  PyStr.last_char ext = Some c →
  glob_match dir ext path = true → PyStr.last_char path = Some c.
Proof.
  intros Hc. unfold glob_match.
  destruct (name_in_dir dir path) as [name|] eqn:E; [|discriminate].
  intros H. apply andb_true_iff in H as [_ H].
  rewrite <- (name_in_dir_last _ _ _ E). exact (endswith_last_char _ _ _ Hc H).
Qed.

Lemma last_char_path_join (a b : string) (c : ascii) :
  PyStr.last_char b = Some c → PyStr.last_char (path_join a b) = Some c.
Proof.
  intros H. apply last_char_inv in H as [d ->]. unfold path_join.
  destruct (PyStr.startswith "/" _); [apply last_char_snoc|].
  destruct (_ || _).
  - rewrite <- app_string_assoc. apply last_char_snoc.
  - replace (a +:+ "/" +:+ d +:+ String c EmptyString)
      with ((a +:+ "/" +:+ d) +:+ String c EmptyString)
      by (rewrite !app_string_assoc; reflexivity).
    apply last_char_snoc.
Qed.

(** The clean-up never removes a file whose name ends in [.pdf]. *)
Lemma pdf_not_intermediate (dir name : string) :
  is_intermediate dir (path_join dir (name +:+ ".pdf")) = false.
Proof.
  assert (Hl : PyStr.last_char (path_join dir (name +:+ ".pdf")) = Some "f"%char).
  { apply last_char_path_join.
    replace (name +:+ ".pdf") with ((name +:+ ".pd") +:+ "f")
      by (rewrite app_string_assoc; reflexivity).
    apply last_char_snoc. }
  unfold is_intermediate, globules. simpl.
  repeat match goal with
  | |- context [glob_match dir ?ext ?p] =>
      let E := fresh "E" in
      destruct (glob_match dir ext p) eqn:E;
      [ eapply glob_match_last_char in E; [|reflexivity]; congruence | ]
  end.
  reflexivity.
Qed.

(** X1.  The clean-up of lines 154-157 never removes a file whose name ends
    in [.pdf], never adds or changes a file, and running it twice changes
    nothing more. *)
Theorem cleanup_keeps_documents (dir : string) (fs : filesystem) :
  (∀ name, cleanup dir fs !! path_join dir (name +:+ ".pdf")
           = fs !! path_join dir (name +:+ ".pdf"))
  ∧ cleanup dir fs ⊆ fs
  ∧ cleanup dir (cleanup dir fs) = cleanup dir fs.
Proof.
  split; [|split].
  - intros name. rewrite cleanup_lookup, pdf_not_intermediate. reflexivity.
  - apply map_subseteq_spec. intros path content. rewrite cleanup_lookup.
    destruct (is_intermediate dir path); [discriminate|auto].
  - apply map_eq. intros path. rewrite !cleanup_lookup.
    destruct (is_intermediate dir path); reflexivity.
Qed.

(** ** The itemised list of a category *)

(** The lines of the block of a category, in the order of the row. *)
Fixpoint items (c : qclass) (row : list (string * answer)) : string :=
  match row with
  | [] => EmptyString
  | (question, a) :: rest =>
      if decide (classify question = c) then
        match sub_category question with
        | Ok sub_cat => item_line sub_cat a +:+ items c rest
        | Raise _ => items c rest
        end
      else items c rest
  end.

#[local] Arguments item_line : simpl never.
#[local] Arguments generic_section : simpl never.

Lemma block_history_1 (row : list (string * answer)) (old : string) :
  fold_left (key_step "test_prep") row (Some (VStr old))
  = Some (VStr (old +:+ items Category1 row)).
Proof.
  revert old. induction row as [|[question a] rest IH]; intros old; simpl.
  - rewrite app_string_nil_r. reflexivity.
  - unfold key_step at 2. simpl.
    destruct (classify question) eqn:Hc; simpl; try apply IH.
    + apply classify_Identity in Hc as [-> | ->]; simpl; apply IH.
    + unfold block_step. destruct (sub_category question); [|apply IH].
      rewrite IH. do 2 f_equal. apply app_string_assoc.
Qed.

Lemma block_history_2 (row : list (string * answer)) (old : string) :
  fold_left (key_step "lost_per") row (Some (VStr old))
  = Some (VStr (old +:+ items Category2 row)).
Proof.
  revert old. induction row as [|[question a] rest IH]; intros old; simpl.
  - rewrite app_string_nil_r. reflexivity.
  - unfold key_step at 2. simpl.
    destruct (classify question) eqn:Hc; simpl; try apply IH.
    + apply classify_Identity in Hc as [-> | ->]; simpl; apply IH.
    + unfold block_step. destruct (sub_category question); [|apply IH].
      rewrite IH. do 2 f_equal. apply app_string_assoc.
Qed.

Lemma items_app (c : qclass) (r1 r2 : list (string * answer)) :
  items c (r1 ++ r2) = items c r1 +:+ items c r2.
Proof.
  induction r1 as [|[question a] r1 IH]; [reflexivity|].
  cbn [items app]. destruct (decide (classify question = c)); [|exact IH].
  destruct (sub_category question); [|exact IH].
  rewrite IH. symmetry. apply app_string_assoc.
Qed.

(** X2.  For a row whose category labels carry a bracket, the block of each
    category holds one line [- sub-label: answer] per sub-question, in the
    order in which the row has them (lines 114 and 122): the block of a row
    [r1 ++ r2] is the block of [r1] followed by that of [r2]. *)
Theorem category_block_spec (course : string) (r1 r2 : list (string * answer)) :
  bracketed (r1 ++ r2) = true →
  reported "test_prep" course (r1 ++ r2)
    = Ok (Some (VStr (items Category1 r1 +:+ items Category1 r2)))
  ∧ reported "lost_per" course (r1 ++ r2)
    = Ok (Some (VStr (items Category2 r1 +:+ items Category2 r2))).
Proof.
  intros Hb. destruct (compile_row_ok course _ Hb) as (data & E & _ & Hk).
  unfold reported. rewrite E. simpl. rewrite !Hk. split.
  - change (init_data course !! "test_prep") with (Some (VStr EmptyString)).
    rewrite block_history_1, items_app. reflexivity.
  - change (init_data course !! "lost_per") with (Some (VStr EmptyString)).
    rewrite block_history_2, items_app. reflexivity.
Qed.

(** The two items of the spec's example, in the order of the columns. *)
Lemma category_block_spec_witness :
  reported "test_prep" "EME 150A"
    ([("What percentage of time [Reading notes]", AStr "40%")] ++
     [("What percentage of time [Practice problems]", AStr "65%")])
  = Ok (Some (VStr ("- Reading notes: 40%" +:+ nl +:+ "- Practice problems: 65%" +:+ nl))).
Proof.
  refine (eq_trans (proj1 (category_block_spec "EME 150A" _ _ _)) _); reflexivity.
Defined.

(** ** The document of a complete row *)

(** A template with its fields replaced by the strings [value] gives. *)
Fixpoint fill (value : string → string) (ps : list piece) : string :=
  match ps with
  | [] => EmptyString
  | Lit text :: ps' => text +:+ fill value ps'
  | Field name :: ps' => value name +:+ fill value ps'
  end.

Section Document.

Variable float_str : PyFloat.float → string.
Variable rst2latex : string → option string.
Variable pdflatex : string → option string * list (string * string).

Lemma render_then_fill (data : gmap string pyval) (value : string → string)
    (ps : list piece) :
  (∀ name, In (Field name) ps →
           ∃ v, data !! name = Some v ∧ str_of_val float_str v = value name) →
  render_then float_str data ps (Ok EmptyString) = Ok (fill value ps).
Proof.
  induction ps as [|[text|name] ps IH]; intros H; simpl; [reflexivity| |].
  - rewrite IH; [reflexivity|]. intros n Hn. apply H. right. exact Hn.
  - destruct (H name (or_introl eq_refl)) as (v & Hv & Hs).
    unfold getitem. rewrite Hv. simpl. rewrite IH, Hs; [reflexivity|].
    intros n Hn. apply H. right. exact Hn.
Qed.

(** What each field of the report stands for. *)
Definition report_value (course : string) (row : list (string * answer))
    (name : string) : string :=
  if String.eqb name "course_desig" then course
  else if String.eqb name "FirstName" then
    from_option str_of_answer EmptyString (answer_of "First Name" row)
  else if String.eqb name "LastName" then
    from_option str_of_answer EmptyString (answer_of "Last Name" row)
  else if String.eqb name "test_prep" then items Category1 row
  else if String.eqb name "test_prep_total" then
    str_of_num float_str (sum_percentages (category_answers Category1 row))
  else if String.eqb name "test_prep_other" then
    from_option str_of_answer EmptyString (last_of is_override1 row)
  else if String.eqb name "lost_per" then items Category2 row
  else if String.eqb name "lost_per_total" then
    str_of_num float_str (sum_percentages (category_answers Category2 row))
  else if String.eqb name "lost_per_other" then
    from_option str_of_answer EmptyString (last_of is_override2 row)
  else EmptyString.

Lemma str_of_val_answer (a : answer) :
  str_of_val float_str (val_of_answer a) = str_of_answer a.
Proof. destruct a; reflexivity. Qed.

(** X3.  A row with both identity answers (the last name a string), an
    answer for each of the two "other" questions, bracketed category labels
    and no brace in its generic sections is rendered without an exception:
    the text written to the [.rst] file is the template, the generic
    sections and the end template in this order, with each field replaced
    by its value; the row is then typeset. *)
Theorem complete_row_document (course dir : string) (cols : list string)
    (col_info : list answer) (fs : filesystem) (first o1 o2 : answer)
    (last : string) :
  let row := zip cols col_info in
  bracketed row = true →
  brace_free (generic_text row) = true →
  answer_of "First Name" row = Some first →
  answer_of "Last Name" row = Some (AStr last) →
  last_of is_override1 row = Some o1 →
  last_of is_override2 row = Some o2 →
  let text := fill (report_value course row) (report_pieces row) in
  let rst_file := path_join dir (PyStr.lower last +:+ ".rst") in
  let tex_file := path_join dir (PyStr.lower last +:+ ".tex") in
  rendered float_str course row = Ok text
  ∧ process_row float_str rst2latex pdflatex course dir cols col_info fs
    = (run_pdflatex pdflatex dir tex_file
         (run_rst2latex rst2latex rst_file tex_file (<[rst_file := text]> fs)),
       Ok tt).
Proof.
  intros row Hb Hg HF HL H1 H2 text rst_file tex_file.
  assert (Hr : rendered float_str course row = Ok text).
  { unfold rendered. destruct (compile_row_ok course row Hb) as (data & E & _ & Hk).
    rewrite E. simpl. rewrite (format_report _ _ _ Hg).
    apply render_then_fill. intros name Hn.
    unfold report_pieces, template_pieces, end_pieces in Hn. simpl in Hn.
    unfold report_value.
    repeat (destruct Hn as [Hn|Hn]; [try discriminate; injection Hn as <-; simpl|]);
      try contradiction.
    - rewrite (compiled_course _ _ _ _ E). eauto.
    - rewrite (compiled_first_name _ _ _ _ E), HF. simpl.
      eexists. split; [reflexivity|apply str_of_val_answer].
    - rewrite (compiled_last_name _ _ _ _ E), HL. simpl. eauto.
    - rewrite Hk. change (init_data course !! "test_prep") with (Some (VStr EmptyString)).
      rewrite block_history_1. eauto.
    - rewrite Hk. change (init_data course !! "test_prep_total") with (Some (VNum (PInt 0))).
      rewrite total_history_1. eauto.
    - rewrite (compiled_override1 _ _ _ _ E), H1. simpl. eauto.
    - rewrite Hk. change (init_data course !! "lost_per") with (Some (VStr EmptyString)).
      rewrite block_history_2. eauto.
    - rewrite Hk. change (init_data course !! "lost_per_total") with (Some (VNum (PInt 0))).
      rewrite total_history_2. eauto.
    - rewrite (compiled_override2 _ _ _ _ E), H2. simpl. eauto. }
  split; [exact Hr|].
  exact (process_row_rendered float_str rst2latex pdflatex course dir cols col_info
           last text fs HL Hr).
Qed.

End Document.

(** The sample row of Ana Lee is complete: its document is typeset and
    [out/lee.pdf] holds it. *)
Lemma complete_row_document_witness :
  ∃ text,
    rendered Sample.float_str "EME 150A" (zip Sample.labels Sample.ana) = Ok text
    ∧ (process_row Sample.float_str Sample.rst2latex Sample.pdflatex "EME 150A"
         "out" Sample.labels Sample.ana ∅).1 !! "out/lee.pdf" = Some text.
Proof.
  destruct (complete_row_document Sample.float_str Sample.rst2latex Sample.pdflatex
              "EME 150A" "out" Sample.labels Sample.ana ∅ (AStr "Ana")
              (ANonStr "nan") (AStr "none") "Lee"
              eq_refl eq_refl eq_refl eq_refl eq_refl eq_refl) as [Hr Hp].
  eexists. split; [exact Hr|]. rewrite Hp. vm_compute. reflexivity.
Defined.

(** ** Labels and answers that abort the run *)

Lemma questions_loop_app (r1 r2 : list (string * answer))
    (st : gmap string pyval * string) :
  questions_loop st (r1 ++ r2)
  = st' ← questions_loop st r1; questions_loop st' r2.
Proof.
  revert st. induction r1 as [|[question a] r1 IH]; intros st; simpl; [reflexivity|].
  destruct (loop_body st question a) as [st1|e]; simpl; [apply IH|reflexivity].
Qed.

Lemma bracketed_app (r1 r2 : list (string * answer)) :
  bracketed (r1 ++ r2) = bracketed r1 && bracketed r2.
Proof. unfold bracketed. apply forallb_app. Qed.

Lemma generic_text_app (r1 r2 : list (string * answer)) :
  generic_text (r1 ++ r2) = generic_text r1 +:+ generic_text r2.
Proof.
  induction r1 as [|[question a] r1 IH]; [reflexivity|].
  cbn [generic_text app]. destruct (classify question); try exact IH.
  rewrite IH. symmetry. apply app_string_assoc.
Qed.

Lemma sub_category_no_bracket (label : string) :
  PyStr.contains "[" label = false → sub_category label = Raise IndexError.
Proof. intros H. unfold sub_category. rewrite (split_no_sep _ _ H). reflexivity. Qed.

Section Aborts.

Variable float_str : PyFloat.float → string.
Variable rst2latex : string → option string.
Variable pdflatex : string → option string * list (string * string).

(** X4.  A category question whose label has no opening bracket makes the
    row raise [IndexError] in the loop (lines 113 and 121), before any file
    of the row is written; the questions after it are not read. *)
Theorem bracketless_label_aborts (course dir : string) (cols : list string)
    (col_info : list answer) (fs : filesystem)
    (pre post : list (string * answer)) (question : string) (a : answer) :
  zip cols col_info = (pre ++ (question, a) :: post)%list →
  bracketed pre = true →
  classify question = Category1 ∨ classify question = Category2 →
  PyStr.contains "[" question = false →
  compile_row course (zip cols col_info) = Raise IndexError
  ∧ process_row float_str rst2latex pdflatex course dir cols col_info fs
    = (fs, Raise IndexError).
Proof.
  intros Hz Hb Hc Hq.
  assert (E : compile_row course (zip cols col_info) = Raise IndexError).
  { rewrite Hz. unfold compile_row. rewrite questions_loop_app.
    destruct (questions_loop_ok pre (init_data course) TEMPLATE
                (typed_init course) Hb) as (d & r & -> & _).
    simpl. rewrite loop_body_handle. unfold handle, add_item.
    rewrite (sub_category_no_bracket _ Hq).
    destruct Hc as [-> | ->]; reflexivity. }
  split; [exact E|]. unfold process_row. rewrite E. reflexivity.
Qed.

Lemma format_from_close_brace (data : gmap string pyval) (pre rest : string)
    (c : ascii) :
  brace_free pre = true →
  c ≠ "}"%char →
  format_from float_str data FLit (pre +:+ String "}" (String c rest))
  = Raise ValueError.
Proof.
  intros Hp Hc. rewrite (format_from_lit _ _ _ _ Hp). simpl.
  apply Ascii.eqb_neq in Hc. rewrite Hc. reflexivity.
Qed.

(** X5.  Free text reaches [rst.format] as part of the format string
    (lines 137-138 and 147).  When the first brace of the generic sections
    of a row is a closing brace that is not doubled, the formatting raises
    [ValueError] although no field is missing: the row leaves an empty
    [.rst] file and the run aborts. *)
Theorem free_text_brace_aborts (course dir : string) (cols : list string)
    (col_info : list answer) (fs : filesystem) (first : answer)
    (last pre rest : string) (c : ascii) :
  let row := zip cols col_info in
  bracketed row = true →
  answer_of "First Name" row = Some first →
  answer_of "Last Name" row = Some (AStr last) →
  generic_text row = pre +:+ String "}" (String c rest) →
  brace_free pre = true →
  c ≠ "}"%char →
  process_row float_str rst2latex pdflatex course dir cols col_info fs
  = (<[path_join dir (PyStr.lower last +:+ ".rst") := EmptyString]> fs,
     Raise ValueError).
Proof.
  intros row Hb HF HL Hg Hp Hc. unfold process_row.
  destruct (compile_row_ok course row Hb) as (data & E & _). fold row. rewrite E.
  assert (HL' : data !! "LastName" = Some (VStr last)).
  { rewrite (compiled_last_name _ _ _ _ E), HL. reflexivity. }
  apply write_report_format_raises; [exact HL'|].
  rewrite app_string_assoc, format_report_prefix, Hg.
  replace ((pre +:+ String "}" (String c rest)) +:+ END_TEMPLATE)
    with (pre +:+ String "}" (String c (rest +:+ END_TEMPLATE)))
    by (rewrite app_string_assoc; reflexivity).
  rewrite (format_from_close_brace data pre _ c Hp Hc).
  destruct (render_then_complete float_str data template_pieces (Raise ValueError))
    as [t ->]; [|reflexivity].
  unfold template_pieces. simpl.
  rewrite (compiled_course _ _ _ _ E), (compiled_first_name _ _ _ _ E), HF, HL'.
  reflexivity.
Qed.

End Aborts.

(** A category label without a bracket. *)
Lemma bracketless_label_aborts_witness :
  process_row Sample.float_str Sample.rst2latex Sample.pdflatex "EME 150A" "out"
    ["First Name"; "What percentage of time"] [AStr "Ana"; AStr "40%"] ∅
  = (∅, Raise IndexError).
Proof.
  refine (proj2 (bracketless_label_aborts Sample.float_str Sample.rst2latex
            Sample.pdflatex "EME 150A" "out"
            ["First Name"; "What percentage of time"] [AStr "Ana"; AStr "40%"] ∅
            [("First Name", AStr "Ana")] [] "What percentage of time" (AStr "40%")
            eq_refl eq_refl (or_introl eq_refl) eq_refl)).
Defined.

(** A smiley in a comment. *)
Lemma free_text_brace_aborts_witness :
  process_row Sample.float_str Sample.rst2latex Sample.pdflatex "EME 150A" "out"
    ["First Name"; "Last Name"; "Comments"]
    [AStr "Ana"; AStr "Lee"; AStr "thanks :-}"] ∅
  = (<["out/lee.rst" := EmptyString]> ∅, Raise ValueError).
Proof.
  refine (free_text_brace_aborts Sample.float_str Sample.rst2latex Sample.pdflatex
            "EME 150A" "out" ["First Name"; "Last Name"; "Comments"]
            [AStr "Ana"; AStr "Lee"; AStr "thanks :-}"] ∅ (AStr "Ana") "Lee"
            ("Comments" +:+ nl +:+ "========" +:+ nl +:+ "thanks :-") nl
            (ascii_of_nat 10) eq_refl eq_refl eq_refl eq_refl eq_refl _).
  discriminate.
Defined.

(** ** The messages that are sent *)

Section SentMessages.

Variable float_str : PyFloat.float → string.
Variable smtp_session : email → bool.
Variable series_mean : list PyFloat.float → PyFloat.float.

(** The message of a row when its document exists and the server takes
    it. *)
Definition accepted (average_grade : PyFloat.float) (course dir : string)
    (fs : filesystem) (row : grade_row) : option email :=
  payload ← fs !! attachment_path dir row;
  let msg := dispatch_message average_grade course dir row payload in
  if smtp_session msg then Some msg else None.

Lemma deliver_row_sent (average_grade : PyFloat.float) (course dir : string)
    (fs : filesystem) (log : dispatch_log) (row : grade_row) :
  sent (deliver_row smtp_session average_grade course dir fs log row)
  = (sent log ++ option_list (accepted average_grade course dir fs row))%list.
Proof.
  rewrite deliver_row_cases. unfold accepted.
  destruct (fs !! attachment_path dir row) as [payload|]; simpl.
  - destruct (smtp_session _); simpl; [reflexivity|]. rewrite app_nil_r. reflexivity.
  - rewrite app_nil_r. reflexivity.
Qed.

Lemma fold_deliver_sent (average_grade : PyFloat.float) (course dir : string)
    (fs : filesystem) (grades : list grade_row) (log : dispatch_log) :
  sent (fold_left (deliver_row smtp_session average_grade course dir fs) grades log)
  = (sent log ++ omap (accepted average_grade course dir fs) grades)%list.
Proof.
  revert log. induction grades as [|row rest IH]; intros log; simpl.
  - rewrite app_nil_r. reflexivity.
  - rewrite IH, deliver_row_sent, <- app_assoc. f_equal.
    destruct (accepted average_grade course dir fs row); reflexivity.
Qed.

(** X6.  [send_emails] sends one message for each row whose document is in
    the directory and whose SMTP session succeeds, in the order of the
    rows, and nothing else; every such message comes from the fixed sender,
    copies the fixed address, has the subject [<course> Midterm Reflection],
    goes to the address of its row and carries the bytes of the document
    under the file name of its path (lines 177-198 and 241-243). *)
Theorem sent_messages_spec (grades : list grade_row) (course dir : string)
    (fs : filesystem) (log : dispatch_log) :
  let average_grade := series_mean (map score grades) in
  ∃ final,
    send_emails float_str smtp_session series_mean grades course dir fs log = Ok final
    ∧ sent final = (sent log ++ omap (accepted average_grade course dir fs) grades)%list
    ∧ ∀ row msg,
        accepted average_grade course dir fs row = Some msg →
        msg_from msg = FROM ∧ msg_cc msg = CC
        ∧ msg_to msg = email_address row
        ∧ msg_subject msg = course +:+ " Midterm Reflection"
        ∧ (msg_attachment msg).1 = basename (attachment_path dir row)
        ∧ fs !! attachment_path dir row = Some (msg_attachment msg).2.
Proof.
  intros average_grade. eexists. split; [|split].
  - unfold send_emails. apply dispatch_loop_deliver.
  - apply fold_deliver_sent.
  - intros row msg. unfold accepted.
    destruct (fs !! attachment_path dir row) as [payload|]; simpl; [|discriminate].
    destruct (smtp_session _); [|discriminate].
    intros [= <-]. simpl. repeat split; reflexivity.
Qed.

End SentMessages.

(** ** What a row leaves untouched *)

Section Frame.

Variable float_str : PyFloat.float → string.
Variable rst2latex : string → option string.
Variable pdflatex : string → option string * list (string * string).

Lemma run_rst2latex_frame (rst_file tex_file path : string) (fs : filesystem) :
  path ≠ tex_file →
  run_rst2latex rst2latex rst_file tex_file fs !! path = fs !! path.
Proof.
  intros H. unfold run_rst2latex.
  destruct (fs !! rst_file) as [text|]; [|reflexivity].
  destruct (rst2latex text); [|reflexivity].
  apply lookup_insert_ne. congruence.
Qed.

Lemma fold_insert_frame (f : string → string) (outs : list (string * string))
    (fs : filesystem) (path : string) :
  (∀ ext, path ≠ f ext) →
  fold_left (λ (fs : filesystem) (out : string * string), <[f out.1 := out.2]> fs)
    outs fs !! path = fs !! path.
Proof.
  intros H. revert fs. induction outs as [|out outs IH]; intros fs; simpl;
    [reflexivity|].
  rewrite IH. apply lookup_insert_ne. intros E. exact (H _ (eq_sym E)).
Qed.

Lemma run_pdflatex_frame (dir tex_file path : string) (fs : filesystem) :
  (∀ ext, path ≠ path_join dir (job_name tex_file +:+ ext)) →
  run_pdflatex pdflatex dir tex_file fs !! path = fs !! path.
Proof.
  intros H. unfold run_pdflatex.
  destruct (fs !! tex_file) as [tex|]; [|reflexivity].
  pose proof (fold_insert_frame (λ ext, path_join dir (job_name tex_file +:+ ext))
                (pdflatex tex).2 fs path H) as Hf.
  destruct (pdflatex tex).1; [|exact Hf].
  rewrite lookup_insert_ne; [exact Hf|]. intros E. exact (H _ (eq_sym E)).
Qed.

(** X7.  Processing a row touches no file but those named after the key of
    the row: a path that is not the [.rst] file, the [.tex] file or an
    output of [pdflatex] for the lower-cased last name holds what it held
    before, whether the row succeeds or raises; a row without a last name
    that is a string touches no file at all. *)
Theorem process_row_frame (course dir : string) (cols : list string)
    (col_info : list answer) (fs : filesystem) (path : string) :
  (∀ last,
      answer_of "Last Name" (zip cols col_info) = Some (AStr last) →
      path ≠ path_join dir (PyStr.lower last +:+ ".rst")
      ∧ path ≠ path_join dir (PyStr.lower last +:+ ".tex")
      ∧ ∀ ext, path ≠ path_join dir
                        (job_name (path_join dir (PyStr.lower last +:+ ".tex")) +:+ ext)) →
  (process_row float_str rst2latex pdflatex course dir cols col_info fs).1 !! path
  = fs !! path.
Proof.
  intros H. unfold process_row.
  destruct (compile_row course (zip cols col_info)) as [[data rst]|e] eqn:E;
    [|reflexivity].
  pose proof (compiled_last_name _ _ _ _ E) as HL.
  unfold write_report, getitem.
  destruct (answer_of "Last Name" (zip cols col_info)) as [[last|p]|] eqn:HA;
    rewrite HL; simpl; try reflexivity.
  destruct (H last eq_refl) as (H1 & H2 & H3).
  destruct (format float_str rst data) as [text|e]; simpl.
  - rewrite run_pdflatex_frame by exact H3.
    rewrite run_rst2latex_frame by exact H2.
    rewrite !lookup_insert_ne by congruence. reflexivity.
  - rewrite lookup_insert_ne by congruence. reflexivity.
Qed.

End Frame.

(** The row of Ana Lee leaves [out/notes.txt] alone. *)
Lemma process_row_frame_witness :
  (process_row Sample.float_str Sample.rst2latex Sample.pdflatex "EME 150A" "out"
     Sample.labels Sample.ana (<["out/notes.txt" := "keep"]> ∅)).1 !! "out/notes.txt"
  = Some "keep".
Proof.
  refine (eq_trans (process_row_frame Sample.float_str Sample.rst2latex
            Sample.pdflatex "EME 150A" "out" Sample.labels Sample.ana
            (<["out/notes.txt" := "keep"]> ∅) "out/notes.txt" _) _);
    [|reflexivity].
  intros last Hl. vm_compute in Hl. injection Hl as <-.
  repeat split; discriminate.
Defined.

(** ** From the survey to the message *)

Section EndToEnd.

Variable float_str : PyFloat.float → string.
Variable rst2latex : string → option string.
Variable pdflatex : string → option string * list (string * string).
Variable smtp_session : email → bool.
Variable series_mean : list PyFloat.float → PyFloat.float.

(** X8.  The script with the option [-e]: when the rows before the last
    one are processed, the last row is rendered and typeset, its key has no
    path separator, and a row of the grades table has a last name with the
    same key, then the script ends without an exception, the document of
    that row is still in the directory after the clean-up, and a message
    the server accepts carries it to that student under the name
    [<key>.pdf]. *)
Theorem last_row_is_dispatched (course dir : string) (cols : list string)
    (pre : list (list answer)) (r : list answer) (fs fs0 : filesystem)
    (last text tex pdf : string) (gpre gpost : list grade_row) (g : grade_row)
    (log : dispatch_log) :
  rows_loop float_str rst2latex pdflatex course dir cols pre fs = (fs0, Ok tt) →
  answer_of "Last Name" (zip cols r) = Some (AStr last) →
  rendered float_str course (zip cols r) = Ok text →
  rst2latex text = Some tex →
  (pdflatex tex).1 = Some pdf →
  PyStr.contains "/" (PyStr.lower last) = false →
  PyStr.lower (last_name g) = PyStr.lower last →
  let df := {| columns := cols; rows := pre ++ [r] |} in
  let grades := (gpre ++ g :: gpost)%list in
  let msg := dispatch_message (series_mean (map score grades)) course dir g pdf in
  smtp_session msg = true →
  ∃ fs' final,
    main float_str rst2latex pdflatex smtp_session series_mean course df dir
      (Some grades) fs log = (fs', final, Ok tt)
    ∧ fs' !! attachment_path dir g = Some pdf
    ∧ msg ∈ sent final
    ∧ msg_attachment msg = (PyStr.lower last +:+ ".pdf", pdf).
Proof.
  intros Hpre HL Hr Ht Hp Hs Hg df grades msg Hm.
  pose proof (process_row_rendered float_str rst2latex pdflatex course dir cols r
                last text fs0 HL Hr) as Hrow. cbv zeta in Hrow.
  set (fs1 := run_pdflatex pdflatex dir _ _) in Hrow.
  assert (Hdoc : cleanup dir fs1 !! attachment_path dir g = Some pdf).
  { unfold attachment_path. rewrite cleanup_lookup, pdf_not_intermediate, Hg.
    pose proof (typeset_document rst2latex pdflatex dir
                  (path_join dir (PyStr.lower last +:+ ".rst"))
                  (path_join dir (PyStr.lower last +:+ ".tex"))
                  text tex pdf fs0 Ht Hp) as Hd.
    rewrite (job_name_key dir _ Hs) in Hd. exact Hd. }
  exists (cleanup dir fs1).
  eexists. split; [|split; [exact Hdoc|split]].
  - unfold main, generate_pdfs, df. simpl.
    rewrite rows_loop_app, Hpre. simpl. rewrite Hrow.
    unfold send_emails. rewrite dispatch_loop_deliver. reflexivity.
  - rewrite fold_deliver_sent. apply elem_of_app. right.
    apply list_elem_of_omap. exists g. split.
    + unfold grades. apply elem_of_app. right. apply elem_of_cons. left. reflexivity.
    + unfold accepted. fold grades. rewrite Hdoc. simpl. fold msg. rewrite Hm.
      reflexivity.
  - unfold msg, dispatch_message, attachment_path. simpl. rewrite Hg.
    rewrite basename_path_join; [reflexivity|].
    rewrite contains_app, Hs. reflexivity.
Qed.

End EndToEnd.

(** Ana Lee, from the survey row to the message. *)
Lemma last_row_is_dispatched_witness :
  ∃ fs' final,
    main Sample.float_str Sample.rst2latex Sample.pdflatex
      SampleDispatch.smtp_session SampleDispatch.series_mean "EME 150A"
      {| columns := Sample.labels; rows := [Sample.ana] |} "out"
      (Some [SampleDispatch.ana; SampleDispatch.bo]) ∅ SampleDispatch.empty_log
    = (fs', final, Ok tt)
    ∧ map msg_to (sent final) = ["lee@ucdavis.edu"]
    ∧ map (λ m, (msg_attachment m).1) (sent final) = ["lee.pdf"].
Proof.
  destruct (rendered Sample.float_str "EME 150A" (zip Sample.labels Sample.ana))
    as [text|] eqn:E; [|vm_compute in E; discriminate].
  destruct (last_row_is_dispatched Sample.float_str Sample.rst2latex Sample.pdflatex
              SampleDispatch.smtp_session SampleDispatch.series_mean
              "EME 150A" "out" Sample.labels [] Sample.ana ∅ ∅ "Lee" text text text
              [] [SampleDispatch.bo] SampleDispatch.ana SampleDispatch.empty_log
              eq_refl eq_refl E eq_refl eq_refl eq_refl eq_refl eq_refl)
    as (fs' & final & Hmain & _).
  exists fs', final. split; [exact Hmain|].
  vm_compute in Hmain. injection Hmain as _ <-. split; reflexivity.
Defined.

(** ** The kind of a total, the sections, and missing scores *)

Lemma parse_percentage_kind (a : answer) :
  parse_percentage a = PInt 0 ∨ ∃ f, parse_percentage a = PFloat f.
Proof.
  unfold parse_percentage.
  destruct (s ← slice_drop_last a; PyFloat.of_string s); eauto.
Qed.

Lemma sum_from_float (answers : list answer) (f : PyFloat.float) :
  ∃ g, sum_from (PFloat f) answers = PFloat g.
Proof.
  revert f. induction answers as [|a rest IH]; intros f; [eauto|].
  unfold sum_from. simpl.
  destruct (parse_percentage_kind a) as [-> | [g ->]]; simpl; apply IH.
Qed.

(** X9.  A total starts as the integer 0 (lines 107-108) and becomes a
    float with the first answer that parses: it is still the integer 0
    after a category none of whose answers parses (an empty category among
    them), and a float as soon as one answer parses, whatever the others
    are. *)
Theorem total_kind (answers : list answer) :
  (Forall (λ a, parse_percentage a = PInt 0) answers →
   sum_percentages answers = PInt 0)
  ∧ (Exists (λ a, ∃ f, parse_percentage a = PFloat f) answers →
     ∃ g, sum_percentages answers = PFloat g).
Proof.
  unfold sum_percentages. split.
  - induction 1 as [|a rest Ha _ IH]; [reflexivity|].
    unfold sum_from. simpl. rewrite Ha. exact IH.
  - induction 1 as [a rest [f Ha]|a rest _ IH].
    + unfold sum_from. simpl. rewrite Ha. simpl. apply sum_from_float.
    + unfold sum_from. simpl.
      destruct (parse_percentage_kind a) as [-> | [g ->]]; simpl;
        [exact IH|apply sum_from_float].
Qed.

(** A category with "n/a" and "40%" has a float total, one with "n/a" only
    the integer 0. *)
Lemma total_kind_witness :
  sum_percentages [AStr "n/a"] = PInt 0
  ∧ ∃ g, sum_percentages [AStr "n/a"; AStr "40%"] = PFloat g.
Proof.
  split.
  - apply (proj1 (total_kind [AStr "n/a"])). repeat constructor.
  - apply (proj2 (total_kind [AStr "n/a"; AStr "40%"])).
    right. left. eexists. reflexivity.
Defined.

(** X10.  A score that is not a number (a blank cell read as [nan]) is not
    below any mean, and nothing is below a mean that is [nan]: the cover
    text of line 235 is then the empty one. *)
Theorem cover_text_nan (x : PyFloat.float) :
  cover_text S754_nan x = EmptyString ∧ cover_text x S754_nan = EmptyString.
Proof. split; [reflexivity|]. destruct x; reflexivity. Qed.

(** X11.  The format string of a row is the template, one section per
    generic question in the order of the columns, and the end template
    (lines 106 and 136-140): the sections of [r1 ++ r2] are those of [r1]
    followed by those of [r2]; a generic question gives its label, a line of
    as many [=] as the label has characters, and its answer; a question of
    another class gives nothing. *)
Theorem generic_sections_spec (course : string) (r1 r2 : list (string * answer))
    (data : gmap string pyval) (rst : string) :
  compile_row course (r1 ++ r2) = Ok (data, rst) →
  rst = TEMPLATE +:+ generic_text r1 +:+ generic_text r2 +:+ END_TEMPLATE
  ∧ ∀ question a,
      generic_text [(question, a)]
      = if decide (classify question = Generic)
        then question +:+ nl +:+ PyStr.repeat_char "=" (String.length question)
             +:+ nl +:+ str_of_answer a +:+ nl +:+ nl
        else EmptyString.
Proof.
  intros H. apply compile_row_inv in H as [-> _]. split.
  - rewrite generic_text_app, !app_string_assoc. reflexivity.
  - intros question a. cbn [generic_text].
    destruct (classify question); try reflexivity.
    rewrite app_string_nil_r. reflexivity.
Qed.

(** Two generic questions around a category question. *)
Lemma generic_sections_spec_witness :
  ∃ data,
    compile_row "EME 150A"
      ([("Comments", AStr "ok")] ++
       [("What percentage of time [Notes]", AStr "40%"); ("Advice", AStr "none")])
    = Ok (data, TEMPLATE +:+ ("Comments" +:+ nl +:+ "========" +:+ nl +:+ "ok" +:+ nl +:+ nl)
                +:+ ("Advice" +:+ nl +:+ "======" +:+ nl +:+ "none" +:+ nl +:+ nl)
                +:+ END_TEMPLATE).
Proof.
  destruct (compile_row "EME 150A"
              ([("Comments", AStr "ok")] ++
               [("What percentage of time [Notes]", AStr "40%"); ("Advice", AStr "none")]))
    as [[data rst]|] eqn:E; [|vm_compute in E; discriminate].
  exists data. f_equal. f_equal.
  exact (proj1 (generic_sections_spec _ _ _ _ _ E)).
Defined.

(** ** No dispatch after a failed generation *)

Section NoDispatch.

Variable float_str : PyFloat.float → string.
Variable rst2latex : string → option string.
Variable pdflatex : string → option string * list (string * string).
Variable smtp_session : email → bool.
Variable series_mean : list PyFloat.float → PyFloat.float.

(** X12.  When the first row of the survey lacks the "First Name" or the
    "Last Name" question, the script ends with the exception of that row
    before [send_emails] is called: with or without the option [-e], no
    line of the dispatch is printed and no message is sent. *)
Theorem no_dispatch_without_identity (course dir : string) (cols : list string)
    (r : list answer) (rest : list (list answer)) (email : option (list grade_row))
    (fs : filesystem) (log : dispatch_log) :
  has_label "First Name" (zip cols r) = false
  ∨ has_label "Last Name" (zip cols r) = false →
  ∃ fs' e,
    main float_str rst2latex pdflatex smtp_session series_mean course
      {| columns := cols; rows := r :: rest |} dir email fs log
    = (fs', log, Raise e).
Proof.
  intros H.
  destruct (process_row_missing_identity float_str rst2latex pdflatex course dir
              cols r fs H) as (fs' & e & E).
  exists fs', e. unfold main, generate_pdfs. simpl. rewrite E. reflexivity.
Qed.

End NoDispatch.

(** A survey without the "Last Name" column, run with the option [-e]. *)
Lemma no_dispatch_without_identity_witness :
  ∃ fs' e,
    main Sample.float_str Sample.rst2latex Sample.pdflatex
      SampleDispatch.smtp_session SampleDispatch.series_mean "EME 150A"
      {| columns := ["First Name"; "Comments"];
         rows := [[AStr "Ana"; AStr "fine"]; [AStr "Bo"; AStr "good"]] |} "out"
      (Some [SampleDispatch.ana]) SampleDispatch.documents SampleDispatch.empty_log
    = (fs', SampleDispatch.empty_log, Raise e).
Proof.
  exact (no_dispatch_without_identity Sample.float_str Sample.rst2latex
           Sample.pdflatex SampleDispatch.smtp_session SampleDispatch.series_mean
           "EME 150A" "out" ["First Name"; "Comments"] [AStr "Ana"; AStr "fine"]
           [[AStr "Bo"; AStr "good"]] (Some [SampleDispatch.ana])
           SampleDispatch.documents SampleDispatch.empty_log (or_intror eq_refl)).
Defined.

(** ** What a compiled row keeps of its questions *)

(** The keys the loop can leave in [data]. *)
Definition data_keys : list string :=
  ["course_desig"; "FirstName"; "LastName";
   "test_prep"; "test_prep_total"; "test_prep_other";
   "lost_per"; "lost_per_total"; "lost_per_other"].

(** Whether a text occurs in a string, and whether it occurs anywhere in a
    compiled row: in a value of the dictionary or in the format string. *)
Definition occurs (text s : string) : bool :=
  match String.index 0 text s with
  | Some _ => true
  | None => false
  end.

Definition keeps (st : gmap string pyval * string) (text : string) : bool :=
  existsb (λ kv : string * pyval,
             match kv.2 with
             | VStr s | VNonStr s => occurs text s
             | VNum _ => false
             end) (map_to_list st.1)
  || occurs text st.2.

Lemma key_other (k : string) (old : option pyval) (qa : string * answer) :
  k ∉ data_keys → key_step k old qa = old.
Proof.
  intros Hk. destruct qa as [question a]. unfold key_step. simpl.
  destruct (classify question) eqn:Hc; repeat case_decide; subst;
    try reflexivity; exfalso; apply Hk; unfold data_keys;
    try (apply classify_Identity in Hc as [-> | ->]);
    repeat first [apply list_elem_of_here | apply list_elem_of_further].
Qed.

Lemma init_data_other (course k : string) :
  k ∉ data_keys → init_data course !! k = None.
Proof.
  intros Hk. unfold init_data.
  rewrite !lookup_insert_ne; [apply lookup_empty|..];
    intros <-; apply Hk; unfold data_keys;
    repeat first [apply list_elem_of_here | apply list_elem_of_further].
Qed.

Lemma questions_loop_sub_category (row : list (string * answer))
    (st st' : gmap string pyval * string) :
  questions_loop st row = Ok st' →
  ∀ question a, (question, a) ∈ row →
    classify question = Category1 ∨ classify question = Category2 →
    ∃ sub_cat, sub_category question = Ok sub_cat.
Proof.
  revert st. induction row as [|[q b] rest IH]; intros st H question a Hin Hc.
  - apply elem_of_nil in Hin. contradiction.
  - simpl in H.
    destruct (loop_body st q b) as [st1|] eqn:E; simpl in H; [|discriminate].
    apply elem_of_cons in Hin as [[= -> ->]|Hin]; [|exact (IH st1 H _ _ Hin Hc)].
    rewrite loop_body_handle in E.
    destruct Hc as [Hc|Hc]; rewrite Hc in E; simpl in E;
      destruct (add_item _ _ _ _ _) as [d|] eqn:Ea; try discriminate;
      (apply add_item_inv in Ea as (sub & _ & _ & Hs & _); [eauto|done]).
Qed.

Lemma is_override_class (question : string) :
  (classify question = Override1 ↔ is_override1 question = true)
  ∧ (classify question = Override2 ↔ is_override2 question = true).
Proof.
  unfold is_override1, is_override2.
  destruct (PyStr.startswith prompt_other question) eqn:Hp.
  - rewrite (prompt_other_class _ Hp).
    destruct (PyStr.endswith_char "1" question); simpl; intuition congruence.
  - pose proof (classify_cases question) as Hc. simpl.
    destruct (classify question); intuition congruence.
Qed.

(** C2.  Every question label is given exactly one of the seven classes by
    the priority table (identity, category 1, category 2, override,
    ignorable, generic, in this order), and the loop body does what the
    handler of that class does and nothing else.  What a row that compiles
    keeps of its questions: every sub-question of a category as a line of
    its block and a term of its total, every generic question as a section
    of the format string, all in the order of the columns; of the identity
    and override questions only the last one of each slot (the last "First
    Name", the last "Last Name", the last override whose label does not end
    in 1, the last one whose label does), since each of them is an
    assignment that replaces the one before; nothing of the ignorable
    questions; and [data] has no other key than the nine of [data_keys]. *)
Theorem classification_spec (course : string) (row : list (string * answer)) :
  (∀ st r, questions_loop st r = route st r)
  ∧ (∀ st question a,
       loop_body st question a = handle (classify question) st question a)
  ∧ (∀ st st' question a,
       loop_body st question a = Ok st' →
       recorded (classify question) st st' question a)
  ∧ (∀ question,
       (classify question = Identity ↔ is_identity question = true)
       ∧ (classify question = Category1 ↔
            is_identity question = false
            ∧ PyStr.startswith "What percentage" question = true)
       ∧ (classify question = Category2 ↔
            is_identity question = false
            ∧ PyStr.startswith "What percentage" question = false
            ∧ PyStr.startswith "Now that" question = true)
       ∧ (classify question = Override2 ∨ classify question = Override1 ↔
            is_identity question = false
            ∧ PyStr.startswith "What percentage" question = false
            ∧ PyStr.startswith "Now that" question = false
            ∧ PyStr.startswith prompt_other question = true)
       ∧ (classify question = Override1 ↔ is_override1 question = true)
       ∧ (classify question = Override2 ↔ is_override2 question = true)
       ∧ (classify question = Ignorable ↔
            is_identity question = false
            ∧ PyStr.startswith "What percentage" question = false
            ∧ PyStr.startswith "Now that" question = false
            ∧ PyStr.startswith prompt_other question = false
            ∧ PyStr.startswith "Unnamed" question = true)
       ∧ (classify question = Generic ↔
            is_identity question = false
            ∧ PyStr.startswith "What percentage" question = false
            ∧ PyStr.startswith "Now that" question = false
            ∧ PyStr.startswith prompt_other question = false
            ∧ PyStr.startswith "Unnamed" question = false))
  ∧ (∀ data rst,
       compile_row course row = Ok (data, rst) →
       rst = TEMPLATE +:+ generic_text row +:+ END_TEMPLATE
       ∧ (∀ question a, (question, a) ∈ row →
            classify question = Category1 ∨ classify question = Category2 →
            ∃ sub_cat, sub_category question = Ok sub_cat)
       ∧ data !! "test_prep" = Some (VStr (items Category1 row))
       ∧ data !! "lost_per" = Some (VStr (items Category2 row))
       ∧ data !! "test_prep_total"
         = Some (VNum (sum_percentages (category_answers Category1 row)))
       ∧ data !! "lost_per_total"
         = Some (VNum (sum_percentages (category_answers Category2 row)))
       ∧ data !! "FirstName" = val_of_answer <$> answer_of "First Name" row
       ∧ data !! "LastName" = val_of_answer <$> answer_of "Last Name" row
       ∧ data !! "test_prep_other"
         = (λ a, VStr (str_of_answer a)) <$> last_of is_override1 row
       ∧ data !! "lost_per_other"
         = (λ a, VStr (str_of_answer a)) <$> last_of is_override2 row
       ∧ data !! "course_desig" = Some (VStr course)
       ∧ (∀ k, k ∉ data_keys → data !! k = None)).
Proof.
  split; [intros st r; apply questions_loop_route|].
  split; [intros st question a; apply loop_body_handle|].
  split; [intros st st' question a; apply (loop_body_classified st question a)|].
  split.
  { intros question.
    destruct (loop_body_classified (∅, EmptyString) question (AStr EmptyString))
      as (_ & _ & _ & Hi & H1 & H2 & Ho & _ & _ & Hg & Hn).
    destruct (is_override_class question) as [Ho1 Ho2].
    split; [exact Hi|]. split; [exact H1|]. split; [exact H2|].
    split; [exact Ho|]. split; [exact Ho1|]. split; [exact Ho2|].
    split; [exact Hg|exact Hn]. }
  intros data rst E.
  assert (Hsub : ∀ question a, (question, a) ∈ row →
            classify question = Category1 ∨ classify question = Category2 →
            ∃ sub_cat, sub_category question = Ok sub_cat).
  { unfold compile_row in E.
    destruct (questions_loop (init_data course, TEMPLATE) row) as [st|] eqn:Eq;
      [|discriminate].
    exact (questions_loop_sub_category row _ _ Eq). }
  pose proof (compiled_first_name _ _ _ _ E) as Hf.
  pose proof (compiled_last_name _ _ _ _ E) as Hl.
  pose proof (compiled_override1 _ _ _ _ E) as Ho1.
  pose proof (compiled_override2 _ _ _ _ E) as Ho2.
  pose proof (compiled_course _ _ _ _ E) as Hc.
  apply compile_row_inv in E as [-> Hk].
  split; [apply app_string_assoc|]. split; [exact Hsub|].
  split; [rewrite Hk; exact (block_history_1 row EmptyString)|].
  split; [rewrite Hk; exact (block_history_2 row EmptyString)|].
  split; [rewrite Hk; exact (total_history_1 row (PInt 0))|].
  split; [rewrite Hk; exact (total_history_2 row (PInt 0))|].
  do 5 (split; [assumption|]).
  intros k Hnot. rewrite Hk, (fold_key_keep k (λ old qa, key_other k old qa Hnot)).
  apply init_data_other, Hnot.
Qed.

(** The complete form of [Sample]: both slots are filled once, and the row
    keeps the two answers. *)
Lemma classification_spec_witness :
  ∃ data rst,
    compile_row "EME 150A" (zip Sample.labels Sample.bob) = Ok (data, rst)
    ∧ data !! "test_prep_other" = Some (VStr "sleep")
    ∧ data !! "lost_per_other" = Some (VStr "nan")
    ∧ data !! "Comments" = None.
Proof.
  destruct (compile_row "EME 150A" (zip Sample.labels Sample.bob))
    as [[data rst]|] eqn:E; [|vm_compute in E; discriminate].
  exists data, rst. split; [reflexivity|].
  destruct (proj2 (proj2 (proj2 (proj2
              (classification_spec "EME 150A" (zip Sample.labels Sample.bob)))))
              data rst E)
    as (_ & _ & _ & _ & _ & _ & _ & _ & Ho1 & Ho2 & _ & Hk).
  split; [exact Ho1|]. split; [exact Ho2|].
  apply Hk. vm_compute. intros H.
  repeat (apply elem_of_cons in H as [H|H]; [discriminate|]).
  apply elem_of_nil in H. exact H.
Defined.

(** C2 as stated fails on "none is dropped".  A form with three "other"
    questions of the same wording reaches the loop with the labels pandas
    gives them: the bare one, one ending in [.1] and one ending in [.2].
    The first and the third are both of the class override 1, neither is
    ignorable, and lines 131-132 assign [test_prep_other] twice: the row
    compiles, its document is written, and the first answer is in no value
    of [data], not in the format string and not in the document. *)
Lemma classification_drops_earlier_answer :
  let other_3 := prompt_other +:+ " above please specify..2" in
  let cols := ["First Name"; "Last Name"; "What percentage of time [Reading notes]";
               Sample.other_1; "Now that you have looked [Careless mistakes]";
               Sample.other_2; other_3] in
  let r := [AStr "Ana"; AStr "Lee"; AStr "40%"; AStr "flash cards"; AStr "100%";
            AStr "none"; AStr "tutoring"] in
  classify Sample.other_1 = Override1
  ∧ classify other_3 = Override1
  ∧ match compile_row "EME 150A" (zip cols r) with
    | Ok st =>
        st.1 !! "test_prep_other" = Some (VStr "tutoring")
        ∧ keeps st "tutoring" = true
        ∧ keeps st "flash cards" = false
    | Raise _ => False
    end
  ∧ match process_row Sample.float_str Sample.rst2latex Sample.pdflatex
            "EME 150A" "out" cols r ∅ with
    | (fs, Ok _) =>
        (occurs "tutoring" <$> fs !! "out/lee.pdf") = Some true
        ∧ (occurs "flash cards" <$> fs !! "out/lee.pdf") = Some false
    | (_, Raise _) => False
    end.
Proof. vm_compute. repeat split. Qed.
